(** * ingen.kpis: the comparison engine [KPIs]

    A shallow embedding of [src/ingen/kpis.py] (class [KPIs]: [__init__],
    [error], [quality], [distance]) together with the properties of the
    engine stated in the specification.

    Numbers.  The engine computes with numpy [float64] values.  They are
    idealised here as exact numbers: rationals [Q] for the histogram
    metrics (field operations only, so every definition evaluates), reals
    [R] for the point distance (which needs a square root).  What numpy
    does where exact arithmetic has no answer is kept: a numpy division by
    zero does not raise, it yields [nan] or an infinity, and the mean of an
    empty array is [nan]; these are the extra constructors of [npfloat].
    A division of two plain Python [int]s by zero raises
    [ZeroDivisionError].  Rounding and the sign of zero are not modelled
    in the exact embedding; where rounding decides a property, the
    quality metric is embedded a second time on IEEE binary64 numbers
    ([f64_quality]). *)

From Stdlib Require Import List Bool Arith Lia.
From Stdlib Require Import ZArith QArith Qabs Qminmax.
From Stdlib Require Import Reals Psatz.
From Stdlib Require Import Permutation.
From Stdlib Require Ascii String.
From Stdlib Require Floats.
#[local] Set Warnings "-stdlib-vector".
From Stdlib Require Vector.
Import ListNotations.

Set Implicit Arguments.

(** ** Results of Python calls *)

(** The exceptions the modelled code can raise. *)
Inductive exn : Type :=
| ZeroDivisionError   (* Python: int / int with a zero divisor *)
| ValueError          (* numpy: operands could not be broadcast together *)
| IndexError.         (* numpy: boolean index did not match indexed array *)

Inductive result (A : Type) : Type :=
| Ok (a : A)
| Raise (e : exn).
Arguments Ok {A} a.
Arguments Raise {A} e.

Definition bind {A B : Type} (m : result A) (f : A -> result B) : result B :=
  match m with
  | Ok a => f a
  | Raise e => Raise e
  end.

Notation "x <- m ;; k" := (bind m (fun x => k))
  (at level 61, m at next level, right associativity).

(** A numpy float: a finite number, an infinity, or not-a-number. *)
Inductive npfloat (A : Type) : Type :=
| Fin (x : A)
| PInf
| NInf
| NaN.
Arguments Fin {A} x.
Arguments PInf {A}.
Arguments NInf {A}.
Arguments NaN {A}.

Definition is_finite {A : Type} (v : npfloat A) : bool :=
  match v with
  | Fin _ => true
  | _ => false
  end.

(** ** Two ways to add up an array

    Python's builtin [sum] adds from left to right.  numpy's
    [ndarray.sum()] on a contiguous array adds pairwise
    ([pairwise_sum] of numpy's [loops_utils.h]): fewer than 8 entries in a
    plain loop; up to 128 entries in eight interleaved accumulators that
    are combined as a tree, the entries left over added one by one; more
    entries by halving the array (the first half cut down to a multiple of
    8).  In exact arithmetic the two give the same number, in [float64]
    they round differently.  Both are written over any number type. *)

Section Pairwise.

Variable A : Type.
Variable add : A -> A -> A.
Variable zero : A.

(** [res = 0; for x in l: res += x]. *)
Definition simple_sum (l : list A) : A := fold_left add l zero.

(** [r[j] += a[i + j]] for [j] in 0..7. *)
Definition add8 (r blk : list A) : list A :=
  map (fun p => add (fst p) (snd p)) (combine r blk).

(** The unrolled loop: [nblocks] blocks of 8 are added to the
    accumulators [r]; returns the accumulators and what is left. *)
Fixpoint unroll8 (nblocks : nat) (r l : list A) : list A * list A :=
  match nblocks with
  | O => (r, l)
  | S k => unroll8 k (add8 r (firstn 8 l)) (skipn 8 l)
  end.

(** [((r0 + r1) + (r2 + r3)) + ((r4 + r5) + (r6 + r7))]. *)
Definition tree8 (r : list A) : A :=
  match r with
  | [r0; r1; r2; r3; r4; r5; r6; r7] =>
      add (add (add r0 r1) (add r2 r3)) (add (add r4 r5) (add r6 r7))
  | _ => simple_sum r
  end.

(** The branch for 8 to 128 entries. *)
Definition block_sum (l : list A) : A :=
  let (r, rest) := unroll8 (Nat.div (length l) 8 - 1)
                           (firstn 8 l) (skipn 8 l) in
  fold_left add rest (tree8 r).

(** [pairwise_sum]; the recursion is bounded by [fuel], and the length of
    the array is fuel enough. *)
Fixpoint pairwise_sum (fuel : nat) (l : list A) : A :=
  let n := length l in
  if Nat.ltb n 8 then simple_sum l
  else if Nat.leb n 128 then block_sum l
  else
    match fuel with
    | O => block_sum l
    | S f =>
        let n2 := (Nat.div n 2 - Nat.modulo (Nat.div n 2) 8)%nat in
        add (pairwise_sum f (firstn n2 l)) (pairwise_sum f (skipn n2 l))
    end.

(** [np.add.reduce] on a 1-d contiguous array, which is what
    [ndarray.sum()] runs: the identity plus the pairwise sum. *)
Definition add_reduce (l : list A) : A :=
  add zero (pairwise_sum (length l) l).

End Pairwise.

(** ** numpy and Python helpers on rationals *)

Section NumpyQ.

Local Open Scope Q_scope.

(** [a / b] on numpy floats whose operands are finite. *)
Definition np_div (a b : Q) : npfloat Q :=
  if Qeq_bool b 0 then
    if Qeq_bool a 0 then NaN
    else if Qle_bool a 0 then NInf else PInf
  else Fin (a / b).

(** Python's builtin [sum]: a left fold from 0. *)
Definition py_sum (l : list Q) : Q := fold_left Qplus l 0.

(** numpy's [a.sum()] on a 1-d array. *)
Definition ndarray_sum (l : list Q) : Q := add_reduce Qplus 0 l.

(** [a - b] on 1-d arrays, with numpy broadcasting of a one-element
    array; any other pair of unequal shapes raises. *)
Definition np_sub (a b : list Q) : result (list Q) :=
  if Nat.eqb (length a) (length b) then
    Ok (map (fun p => fst p - snd p) (combine a b))
  else
    match a, b with
    | _, [y] => Ok (map (fun x => x - y) a)
    | [x], _ => Ok (map (fun y => x - y) b)
    | _, _ => Raise ValueError
    end.

(** [x > 0] and [x == 0] as numpy evaluates them, entry by entry. *)
Definition Qpos_b (x : Q) : bool := negb (Qle_bool x 0).
Definition Qzero_b (x : Q) : bool := Qeq_bool x 0.

End NumpyQ.

(** [a[index]] for a boolean mask [index]: the entries of [a] at the
    positions where the mask is [True]; the mask must be as long as [a]. *)
Fixpoint select {A : Type} (index : list bool) (a : list A) : list A :=
  match index, a with
  | true :: m, x :: t => x :: select m t
  | false :: m, _ :: t => select m t
  | _, _ => []
  end.

Definition mask_select {A : Type} (index : list bool) (a : list A)
  : result (list A) :=
  if Nat.eqb (length index) (length a) then Ok (select index a)
  else Raise IndexError.

(** [zip] of three sequences. *)
Definition zip3 {A B C : Type} (a : list A) (b : list B) (c : list C)
  : list (A * B * C) :=
  combine (combine a b) c.

(** Python's [any] on a sequence of booleans. *)
Definition any (index : list bool) : bool := existsb (fun b => b) index.

(** [np.array_split(ary, Nsections)] along axis 0: the first
    [Ntotal mod Nsections] sections hold [Ntotal / Nsections + 1] rows,
    the others [Ntotal / Nsections]; the sections are the slices between
    consecutive division points.  numpy rejects [Nsections = 0]; the
    engine only ever asks for 16. *)
Fixpoint cumsum_from (acc : nat) (l : list nat) : list nat :=
  match l with
  | [] => []
  | x :: t => (acc + x)%nat :: cumsum_from (acc + x) t
  end.

Definition cumsum (l : list nat) : list nat := cumsum_from 0 l.

(** The Python slice [l[st:en]]. *)
Definition slice {A : Type} (l : list A) (st en : nat) : list A :=
  firstn (en - st) (skipn st l).

Definition section_sizes (Ntotal Nsections : nat) : list nat :=
  let Neach_section := Nat.div Ntotal Nsections in
  let extras := Nat.modulo Ntotal Nsections in
  repeat (S Neach_section) extras
    ++ repeat Neach_section (Nsections - extras).

Definition array_split {A : Type} (ary : list A) (Nsections : nat)
  : list (list A) :=
  let div_points := cumsum (0%nat :: section_sizes (length ary) Nsections) in
  map (fun i => slice ary (nth i div_points 0%nat)
                          (nth (S i) div_points 0%nat))
      (seq 0 Nsections).

(** ** numpy helpers on reals and points *)

Section NumpyR.

Local Open Scope R_scope.

(** Addition of numpy floats. *)
Definition np_add (a b : npfloat R) : npfloat R :=
  match a, b with
  | NaN, _ | _, NaN => NaN
  | PInf, NInf | NInf, PInf => NaN
  | PInf, _ | _, PInf => PInf
  | NInf, _ | _, NInf => NInf
  | Fin x, Fin y => Fin (x + y)
  end.

(** Python's [sum] over numpy floats: a left fold from the int [0]. *)
Definition py_sum_np (l : list (npfloat R)) : npfloat R :=
  fold_left np_add l (Fin 0).

Definition np_sum (l : list R) : R := fold_left Rplus l 0.

(** [a.mean()]: numpy returns [nan] for an empty array. *)
Definition np_mean (l : list R) : npfloat R :=
  match l with
  | [] => NaN
  | _ => Fin (np_sum l / INR (length l))
  end.

(** A numpy float divided by a positive Python int. *)
Definition np_div_pos (a : npfloat R) (n : nat) : npfloat R :=
  match a with
  | Fin x => Fin (x / INR n)
  | other => other
  end.

(** A point: one row of a point array of shape [(n, d)]. *)
Definition point (d : nat) : Type := Vector.t R d.

(** [row - data_point], one row of the broadcast [data_set - data_point]. *)
Definition row_sub {d : nat} (row data_point : point d) : point d :=
  Vector.map2 Rminus row data_point.

(** [np.linalg.norm] of one row: the 2-norm. *)
Definition norm {d : nat} (v : point d) : R :=
  sqrt (Vector.fold_right (fun c acc => c * c + acc) v 0).

End NumpyR.

(** ** The collaborators, as far as the engine reads them

    A grid is held flattened in row-major order; [flatten] is the copy
    numpy returns. *)

Record Binning : Type := mkBinning {
  volumes : list Q
}.

Record Histogram : Type := mkHistogram {
  values : list Q;
  binning : Binning
}.

Definition flatten (grid : list Q) : list Q := grid.

(** A data source: [get_histogram(binning)], and the call
    [source(normalized=...)] that returns its points. *)
Record DataSource (d : nat) : Type := mkDataSource {
  get_histogram : Binning -> Histogram;
  call : bool -> list (point d)
}.

(** ** The engine *)

(** The attributes of a [KPIs] object. *)
Record KPIs (d : nat) : Type := mkKPIs {
  __rd : DataSource d;
  __gd : DataSource d;
  __binning : Binning;
  __h1 : Histogram;
  __h2 : Histogram;
  __h1f : list Q;
  __h2f : list Q;
  __diff : list Q
}.

Section Engine.

Variable d : nat.

(** [KPIs.__init__]. *)
Definition init (real_data generated_data : DataSource d) (binning : Binning)
  : result (KPIs d) :=
  let hist1 := get_histogram real_data binning in
  let hist2 := get_histogram generated_data binning in
  let h1f := flatten (values hist1) in
  let h2f := flatten (values hist2) in
  diff <- np_sub h2f h1f ;;
  Ok {| __rd := real_data; __gd := generated_data; __binning := binning;
        __h1 := hist1; __h2 := hist2;
        __h1f := h1f; __h2f := h2f; __diff := diff |}.

(** [KPIs.error].  [sum] of an empty array is the Python int [0]; when both
    sums are that int the division is Python's and raises, otherwise it is
    numpy's. *)
Definition error (self : KPIs d) : result (npfloat Q) :=
  let num := filter Qpos_b (__diff self) in
  match num, __h2f self with
  | [], [] => Raise ZeroDivisionError
  | _, _ => Ok (np_div (py_sum num) (py_sum (__h2f self)))
  end.

(** [get_quality], local to [KPIs.quality]. *)
Definition get_quality (r delta : Q) : Q :=
  if Qeq_bool r 0 && Qeq_bool delta 0 then 1
  else if Qeq_bool r 0 || negb (Qle_bool (Qabs delta) r) then 0
  else (1 - Qabs delta / r)%Q.

(** The inner [quality(index)], local to [KPIs.quality]. *)
Definition quality_of (self : KPIs d) (index : list bool)
  : result (npfloat Q) :=
  if negb (any index) then Ok (Fin 2)
  else
    let bin_vols := flatten (volumes (binning (__h2 self))) in
    rs <- mask_select index (__h1f self) ;;
    ds <- mask_select index (__diff self) ;;
    vs <- mask_select index bin_vols ;;
    let pairs := zip3 rs ds vs in
    Ok (np_div
          (py_sum (map (fun p =>
                          match p with
                          | (r, delta, vol) => (get_quality r delta * vol)%Q
                          end) pairs))
          (ndarray_sum vs)).

Definition abi (self : KPIs d) : list bool :=
  repeat true (length (__h1f self)).
Definition nebi (self : KPIs d) : list bool := map Qpos_b (__h1f self).
Definition ebi (self : KPIs d) : list bool := map Qzero_b (__h1f self).

(** [KPIs.quality]. *)
Definition quality (self : KPIs d)
  : result (npfloat Q * npfloat Q * npfloat Q) :=
  qa <- quality_of self (abi self) ;;
  qn <- quality_of self (nebi self) ;;
  qe <- quality_of self (ebi self) ;;
  Ok (qa, qn, qe).

(** [_half], local to [KPIs.distance]. *)
Definition _half (data_point : point d) (data_set : list (point d))
  : npfloat R :=
  np_mean (map norm (map (fun row => row_sub row data_point) data_set)).

(** [apply_to_chunk], local to [KPIs.distance]. *)
Definition apply_to_chunk (chunk other_set : list (point d)) : npfloat R :=
  fold_left (fun res data_point => np_add res (_half data_point other_set))
            chunk (Fin 0%R).

(** [split_set_and_apply], local to [KPIs.distance], with the number of
    sections as a parameter; the source fixes it to 16.  The dask bag maps
    [apply_to_chunk] over the sections and [compute] returns the list of
    the partial sums, in order. *)
Definition split_set_and_apply_n (Nsections : nat)
  (set1 set2 : list (point d)) : npfloat R :=
  py_sum_np (map (fun chunk => apply_to_chunk chunk set2)
                 (array_split set1 Nsections)).

Definition split_set_and_apply (set1 set2 : list (point d)) : npfloat R :=
  split_set_and_apply_n 16 set1 set2.

(** [set2set], local to [KPIs.distance].  The divisor is a Python int; it
    is zero only when both sets are empty, and then [s1 + s2] is the
    Python int [0] as well, so the division raises. *)
Definition set2set (set1 set2 : list (point d)) : result (npfloat R) :=
  let s1 := split_set_and_apply set1 set2 in
  let s2 := split_set_and_apply set2 set1 in
  match (length set1 + length set2)%nat with
  | O => Raise ZeroDivisionError
  | S n => Ok (np_div_pos (np_add s1 s2) (S n))
  end.

(** [KPIs.distance]. *)
Definition distance (self : KPIs d) : result (npfloat R) :=
  set2set (call (__rd self) true) (call (__gd self) true).

(** *** The methods as programs on the object

    A method runs on an object and leaves an object behind.  Its body
    reads attributes with [getattr]; an assignment to an attribute would
    be a [setattr].  The three bodies below follow the source read by
    read; [error], [quality] and [distance] above are their results as
    functions of the object. *)
Definition method (A : Type) : Type := KPIs d -> result A * KPIs d.

(** [self.attr]. *)
Definition getattr {X : Type} (attr : KPIs d -> X) : method X :=
  fun self => (Ok (attr self), self).

(** The end of a body: a value returned or an exception raised. *)
Definition finish {A : Type} (r : result A) : method A :=
  fun self => (r, self).

(** One statement after the other; an exception ends the body. *)
Definition and_then {A B : Type} (m : method A) (k : A -> method B)
  : method B :=
  fun self =>
    match m self with
    | (Ok a, self1) => k a self1
    | (Raise e, self1) => (Raise e, self1)
    end.

(** [self.__diff = v], as [__init__] has it. *)
Definition setattr_diff (v : list Q) : method unit :=
  fun self =>
    (Ok tt,
     {| __rd := __rd self; __gd := __gd self; __binning := __binning self;
        __h1 := __h1 self; __h2 := __h2 self;
        __h1f := __h1f self; __h2f := __h2f self; __diff := v |}).

(** The body of [KPIs.error]. *)
Definition error_method : method (npfloat Q) :=
  and_then (getattr (@__diff d)) (fun diff =>
  and_then (getattr (@__h2f d)) (fun h2f =>
  finish
    (let num := filter Qpos_b diff in
     match num, h2f with
     | [], [] => Raise ZeroDivisionError
     | _, _ => Ok (np_div (py_sum num) (py_sum h2f))
     end))).

(** The body of the inner [quality(index)]. *)
Definition quality_index_method (index : list bool) : method (npfloat Q) :=
  if negb (any index) then finish (Ok (Fin 2%Q))
  else
    and_then (getattr (@__h2 d)) (fun h2 =>
    let bin_vols := flatten (volumes (binning h2)) in
    and_then (getattr (@__h1f d)) (fun h1f =>
    and_then (getattr (@__diff d)) (fun diff =>
    finish
      (rs <- mask_select index h1f ;;
       ds <- mask_select index diff ;;
       vs <- mask_select index bin_vols ;;
       let pairs := zip3 rs ds vs in
       Ok (np_div
             (py_sum (map (fun p =>
                             match p with
                             | (r, delta, vol) =>
                                 (get_quality r delta * vol)%Q
                             end) pairs))
             (ndarray_sum vs)))))).

(** The body of [KPIs.quality]. *)
Definition quality_method : method (npfloat Q * npfloat Q * npfloat Q) :=
  and_then (getattr (@__h1f d)) (fun h1f =>
  let abi := repeat true (length h1f) in
  and_then (getattr (@__h1f d)) (fun h1f =>
  let nebi := map Qpos_b h1f in
  and_then (getattr (@__h1f d)) (fun h1f =>
  let ebi := map Qzero_b h1f in
  and_then (quality_index_method abi) (fun qa =>
  and_then (quality_index_method nebi) (fun qn =>
  and_then (quality_index_method ebi) (fun qe =>
  finish (Ok (qa, qn, qe)))))))).

(** The body of [KPIs.distance]. *)
Definition distance_method : method (npfloat R) :=
  and_then (getattr (@__rd d)) (fun rd =>
  and_then (getattr (@__gd d)) (fun gd =>
  finish (set2set (call rd true) (call gd true)))).

(** *** Method calls on an engine *)
Inductive query : Type := QError | QQuality | QDistance.

Inductive response : Type :=
| RError (r : result (npfloat Q))
| RQuality (r : result (npfloat Q * npfloat Q * npfloat Q))
| RDistance (r : result (npfloat R)).

(** What a query returns on an engine, by the functions above. *)
Definition answer (q : query) (self : KPIs d) : response :=
  match q with
  | QError => RError (error self)
  | QQuality => RQuality (quality self)
  | QDistance => RDistance (distance self)
  end.

(** A call runs the body of the method on the object. *)
Definition invoke (q : query) (self : KPIs d) : response * KPIs d :=
  match q with
  | QError => let (r, self1) := error_method self in (RError r, self1)
  | QQuality => let (r, self1) := quality_method self in (RQuality r, self1)
  | QDistance =>
      let (r, self1) := distance_method self in (RDistance r, self1)
  end.

Fixpoint run (qs : list query) (self : KPIs d) : list response * KPIs d :=
  match qs with
  | [] => ([], self)
  | q :: rest =>
      let (r, self1) := invoke q self in
      let (rs, self2) := run rest self1 in
      (r :: rs, self2)
  end.

(** *** Python's [==] on results

    On floats [==] is IEEE equality: [nan] is not equal to anything, not
    to itself either.  Two tuples are equal when their entries are. *)
Definition ieee_eq {A : Type} (eqA : A -> A -> Prop) (a b : npfloat A)
  : Prop :=
  match a, b with
  | Fin x, Fin y => eqA x y
  | PInf, PInf => True
  | NInf, NInf => True
  | _, _ => False
  end.

Definition is_nan {A : Type} (a : npfloat A) : bool :=
  match a with
  | NaN => true
  | _ => false
  end.

(** [a == b] for what two calls of one query returned. *)
Definition py_equal (a b : response) : Prop :=
  match a, b with
  | RError (Ok x), RError (Ok y) => ieee_eq Qeq x y
  | RQuality (Ok (x1, x2, x3)), RQuality (Ok (y1, y2, y3)) =>
      ieee_eq Qeq x1 y1 /\ ieee_eq Qeq x2 y2 /\ ieee_eq Qeq x3 y3
  | RDistance (Ok x), RDistance (Ok y) => ieee_eq (@eq R) x y
  | _, _ => False
  end.

(** The call returned, and what it returned holds no [nan]. *)
Definition returns_no_nan (a : response) : Prop :=
  match a with
  | RError (Ok x) => is_nan x = false
  | RQuality (Ok (x1, x2, x3)) =>
      is_nan x1 = false /\ is_nan x2 = false /\ is_nan x3 = false
  | RDistance (Ok x) => is_nan x = false
  | _ => False
  end.

End Engine.

(** ** The quality metric in [float64]

    The same code on IEEE binary64 numbers, to see what rounding does to
    it.  The numerator of a component is added up by Python's [sum], the
    denominator by numpy's [ndarray.sum()]; the two round differently.
    Division is IEEE division, which yields [nan] or an infinity on a
    zero divisor.  The histograms are taken of one shape. *)

Section Float64.

Import Floats.
Local Open Scope float_scope.

(** Python's builtin [sum] on floats. *)
Definition f64_sum (l : list float) : float := simple_sum PrimFloat.add 0 l.

(** numpy's [a.sum()] on a 1-d float array. *)
Definition f64_ndarray_sum (l : list float) : float :=
  add_reduce PrimFloat.add 0 l.

(** [self.__diff], for two histograms of one shape. *)
Definition f64_diff (h1f h2f : list float) : list float :=
  map (fun p => fst p - snd p) (combine h2f h1f).

(** [get_quality]. *)
Definition f64_get_quality (r delta : float) : float :=
  if (r =? 0) && (delta =? 0) then 1
  else if (r =? 0) || (r <? abs delta) then 0
  else 1 - abs delta / r.

(** The inner [quality(index)]. *)
Definition f64_quality_of (h1f diff bin_vols : list float)
  (index : list bool) : result float :=
  if negb (any index) then Ok 2
  else
    rs <- mask_select index h1f ;;
    ds <- mask_select index diff ;;
    vs <- mask_select index bin_vols ;;
    let pairs := zip3 rs ds vs in
    Ok (f64_sum (map (fun p =>
                        match p with
                        | (r, delta, vol) => f64_get_quality r delta * vol
                        end) pairs)
        / f64_ndarray_sum vs).

(** [KPIs.quality], on the flattened real and generated histograms and
    the flattened volumes. *)
Definition f64_quality (h1f h2f bin_vols : list float)
  : result (float * float * float) :=
  let diff := f64_diff h1f h2f in
  let abi := repeat true (length h1f) in
  let nebi := map (fun r => 0 <? r) h1f in
  let ebi := map (fun r => r =? 0) h1f in
  qa <- f64_quality_of h1f diff bin_vols abi ;;
  qn <- f64_quality_of h1f diff bin_vols nebi ;;
  qe <- f64_quality_of h1f diff bin_vols ebi ;;
  Ok (qa, qn, qe).

(** Sixteen bins of volume 0.1 (the nearest float), each with one real
    and one generated point. *)
Definition tenth : float := 0x1.999999999999ap-4.
Definition sixteen_ones : list float := repeat 1 16.
Definition sixteen_tenths : list float := repeat tenth 16.

(** The float next above 1: 1.0000000000000002. *)
Definition one_and_an_ulp : float := 0x1.0000000000001p+0.

End Float64.

(** ** The metrics as the specification writes them *)

Section Reference.

Local Open Scope Q_scope.

(** The sum of a grid as the specification writes it. *)
Definition total (l : list Q) : Q := fold_right Qplus 0 l.

(** The numerator as the specification writes it: the sum of
    [diff[i] = h2f[i] - h1f[i]] over the bins [i] where it is positive. *)
Fixpoint over_generation (h1f h2f : list Q) : Q :=
  match h1f, h2f with
  | r :: t1, g :: t2 =>
      (if Qpos_b (g - r) then g - r else 0) + over_generation t1 t2
  | _, _ => 0
  end.

(** The error metric: over-generated mass over generated mass. *)
Definition error_ref (h1f h2f : list Q) : Q :=
  over_generation h1f h2f / total h2f.

(** A bin, as the quality metric sees it: the real count [r], the
    difference [delta] and the volume [vol] at one flattened index. *)
Definition bin : Type := (Q * Q * Q)%type.

Definition bin_r (b : bin) : Q := fst (fst b).
Definition bin_delta (b : bin) : Q := snd (fst b).
Definition bin_vol (b : bin) : Q := snd b.

Definition bins (d : nat) (self : KPIs d) : list bin :=
  zip3 (__h1f self) (__diff self) (volumes (binning (__h2 self))).

(** The three partitions. *)
Definition all_bins (b : bin) : bool := true.
Definition nonempty_bins (b : bin) : bool := Qpos_b (bin_r b).
Definition empty_bins (b : bin) : bool := Qzero_b (bin_r b).

(** The volume-weighted mean of the per-bin scores over a partition. *)
Definition weighted_mean (part : list bin) : Q :=
  total (map (fun b => get_quality (bin_r b) (bin_delta b) * bin_vol b) part)
  / total (map bin_vol part).

(** What one component of [quality()] is when nothing guards the
    division: the sentinel 2 when its partition [part] selects no bin,
    otherwise a float that is [nan] or an infinity exactly when the
    volumes of the partition add up to zero. *)
Definition unguarded_score (part : list bin) (v : npfloat Q) : Prop :=
  (part = [] -> v = Fin 2) /\
  (part <> [] ->
   (is_finite v = false <-> total (map bin_vol part) == 0)).

(** What the specification asks of one component of [quality()] for the
    bins [part] its partition selects: the sentinel 2 exactly when no bin
    is selected, otherwise the weighted mean, a value in [0, 1]. *)
Definition partition_score (part : list bin) (v : npfloat Q) : Prop :=
  exists q : Q,
    v = Fin q /\
    (q == 2 <-> part = []) /\
    (part = [] -> q = 2) /\
    (part <> [] -> q == weighted_mean part /\ 0 <= q /\ q <= 1).

End Reference.

Section ReferenceDistance.

Local Open Scope R_scope.

Variable d : nat.

(** The Euclidean distance between two points. *)
Definition euclid (x y : point d) : R :=
  sqrt (Vector.fold_right Rplus
          (Vector.map2 (fun a b => (a - b) * (a - b)) x y) 0).

Definition sumR (l : list R) : R := fold_right Rplus 0 l.

(** The arithmetic mean of the distances from [x] to every point of [Y]. *)
Definition mean_dist (x : point d) (Y : list (point d)) : R :=
  sumR (map (euclid x) Y) / INR (length Y).

(** [cross(X, Y)]: the sum over [x] in [X] of that mean. *)
Definition cross (X Y : list (point d)) : R :=
  sumR (map (fun x => mean_dist x Y) X).

(** [distance(S1, S2)] of the specification. *)
Definition distance_ref (S1 S2 : list (point d)) : R :=
  (cross S1 S2 + cross S2 S1) / INR (length S1 + length S2).

End ReferenceDistance.

(** The sections of a list cut one after the other, by their sizes. *)
Fixpoint slices {A : Type} (l : list A) (sizes : list nat) : list (list A) :=
  match sizes with
  | [] => []
  | n :: rest => firstn n l :: slices (skipn n l) rest
  end.

(** ** Concrete engines *)

Section Concrete.

Local Open Scope Q_scope.

(** A data source with a fixed grid of bin values and a fixed point set. *)
Definition source (d : nat) (vals : list Q) (pts : list (point d))
  : DataSource d :=
  {| get_histogram := fun b => {| values := vals; binning := b |};
     call := fun _ => pts |}.

(** The engine the constructor builds on two grids of one shape. *)
Definition engine (d : nat) (real gen : DataSource d) (b : Binning) : KPIs d :=
  let h1f := values (get_histogram real b) in
  let h2f := values (get_histogram gen b) in
  {| __rd := real; __gd := gen; __binning := b;
     __h1 := get_histogram real b; __h2 := get_histogram gen b;
     __h1f := h1f; __h2f := h2f;
     __diff := map (fun p => fst p - snd p) (combine h2f h1f) |}.

(** Scenario 1 of the specification: two bins of volume 5, real counts
    [3, 1], generated counts [2, 2]. *)
Definition bins_5_5 : Binning := {| volumes := [5; 5] |}.
Definition scenario1 : KPIs 0 :=
  engine (source [3; 1] []) (source [2; 2] []) bins_5_5.

(** Both histograms all zero, on one bin. *)
Definition one_bin : Binning := {| volumes := [1] |}.
Definition zero_mass : KPIs 0 :=
  engine (source [0] []) (source [0] []) one_bin.

(** Identical histograms [3, 1] on the two bins of scenario 1. *)
Definition same_3_1 : KPIs 0 :=
  engine (source [3; 1] []) (source [3; 1] []) bins_5_5.

(** Sixteen bins of volume 1/10, each with one real and one generated
    point: the histograms of the [float64] example, in exact numbers. *)
Definition sixteen_bins : KPIs 0 :=
  engine (source (repeat 1 16) []) (source (repeat 1 16) [])
         {| volumes := repeat (1 # 10) 16 |}.

(** One bin of volume zero, real and generated count 1. *)
Definition flat_bin : Binning := {| volumes := [0] |}.
Definition zero_volume : KPIs 0 :=
  engine (source [1] []) (source [1] []) flat_bin.

(** Points on a line. *)
Definition pt (x : R) : point 1 := Vector.cons R x 0 (Vector.nil R).

(** Scenario 2 of the specification: the point set {0, 10} against
    itself. *)
Definition set_0_10 : list (point 1) := [pt 0%R; pt 10%R].
Definition scenario2 : KPIs 1 :=
  engine (source [1] set_0_10) (source [1] set_0_10) one_bin.

(** Two data sources on the line, of two points and of one. *)
Definition src_0_10 : DataSource 1 := source [1] set_0_10.
Definition src_0 : DataSource 1 := source [1] [pt 0%R].

(** A real data source without points, a generated one with one point. *)
Definition one_sided : KPIs 1 :=
  engine (source [1] []) (source [1] [pt 0%R]) one_bin.

(** Neither data source has a point. *)
Definition no_points : KPIs 1 :=
  engine (source [1] []) (source [1] []) one_bin.

End Concrete.

(** ** Further reference quantities *)

Section ReferenceMore.

Local Open Scope Q_scope.


(** The volume of a set of bins, and the sum of their scores weighted by
    volume. *)
Definition volume_of (part : list bin) : Q := total (map bin_vol part).

Definition weighted_scores (part : list bin) : Q :=
  total (map (fun b => get_quality (bin_r b) (bin_delta b) * bin_vol b) part).

End ReferenceMore.

(** ** The command line: [ingencli.py]

    The option callbacks [validate_binning_amount] and
    [validate_binning_domain], and the [compare] command that builds the
    engine and prints its three metrics.  The callbacks read their [ctx]
    and [param] arguments only to word the error message; they are left
    out, and so is the message. *)

(** The click exceptions the modelled functions raise. *)
Inductive click_exn : Type :=
| BadParameter
| UsageError
| FileError (filename : String.string).

Inductive checked (A : Type) : Type :=
| Accept (a : A)
| Reject (e : click_exn).
Arguments Accept {A} a.
Arguments Reject {A} e.

Section Strings.

Import Ascii String.

Definition comma : ascii := ","%char.

(** Python's [sep in s] for a one-character [sep]. *)
Fixpoint str_contains (sep : ascii) (s : string) : bool :=
  match s with
  | EmptyString => false
  | String c rest => Ascii.eqb c sep || str_contains sep rest
  end.

(** Python's [s.split(sep)] for a one-character [sep]: the fields
    between the separators, empty fields included. *)
Fixpoint str_split (sep : ascii) (s : string) : list string :=
  match s with
  | EmptyString => [EmptyString]
  | String c rest =>
      if Ascii.eqb c sep then EmptyString :: str_split sep rest
      else match str_split sep rest with
           | [] => [String c EmptyString]
           | field :: fields => String c field :: fields
           end
  end.

(** The number of separators in a string. *)
Fixpoint str_count (sep : ascii) (s : string) : nat :=
  match s with
  | EmptyString => 0
  | String c rest =>
      (if Ascii.eqb c sep then 1 else 0) + str_count sep rest
  end.

End Strings.

(** A list comprehension [[f(x) for x in l]] whose [f] may raise: the
    first failure ends it. *)
Fixpoint comprehension {A B : Type} (f : A -> option B) (l : list A)
  : option (list B) :=
  match l with
  | [] => Some []
  | x :: t =>
      match f x with
      | None => None
      | Some y =>
          match comprehension f t with
          | None => None
          | Some ys => Some (y :: ys)
          end
      end
  end.

Section Validators.

(** Python's [int(s)] and [float(s)] on a string; [None] stands for the
    [ValueError] they raise on a string they cannot read.  [float] can
    return an infinity or [nan]. *)
Variable py_int : String.string -> option Z.
Variable py_float : String.string -> option (npfloat Q).

(** [positive_int], local to [validate_binning_amount]; [None] is its
    [ValueError]. *)
Definition positive_int (i : String.string) : option Z :=
  match py_int i with
  | None => None
  | Some z => if (z <=? 0)%Z then None else Some z
  end.

(** What [validate_binning_amount] returns: an int, or a list of ints. *)
Inductive amount : Type :=
| Amount (n : Z)
| Amounts (l : list Z).

(** [validate_binning_amount]. *)
Definition validate_binning_amount (value : option String.string)
  : checked amount :=
  match value with
  | None => Reject BadParameter
  | Some v =>
      if str_contains comma v then
        match comprehension positive_int (str_split comma v) with
        | Some l => Accept (Amounts l)
        | None => Reject BadParameter
        end
      else
        match positive_int v with
        | Some n => Accept (Amount n)
        | None => Reject BadParameter
        end
  end.

(** [x <= 0] on a Python float: false for [nan]. *)
Definition le_zero (x : npfloat Q) : bool :=
  match x with
  | Fin q => Qle_bool q 0
  | NInf => true
  | PInf => false
  | NaN => false
  end.

(** [positive_float], local to [validate_binning_domain]. *)
Definition positive_float (f : String.string) : option (npfloat Q) :=
  match py_float f with
  | None => None
  | Some x => if le_zero x then None else Some x
  end.

(** [validate_binning_domain]. *)
Definition validate_binning_domain (value : option String.string)
  : checked (option (list (npfloat Q))) :=
  match value with
  | None => Accept None
  | Some v =>
      match comprehension positive_float (str_split comma v) with
      | Some l => Accept (Some l)
      | None => Reject BadParameter
      end
  end.

End Validators.

(** A data source as [DataSourceIO.read] returns it: the engine's view of
    it, and its [domain], one entry per dimension. *)
Record LoadedSource (d : nat) : Type := mkLoadedSource {
  domain : list Q;
  as_source : DataSource d
}.

(** The binning the [validate_binning] callback hands to a command. *)
Record BinningArg : Type := mkBinningArg {
  dimensions : nat;
  as_binning : Binning
}.

(** One line of output of the body of [compare]. *)
Inductive echo : Type :=
| EchoError (v : npfloat Q)
| EchoQuality (q : npfloat Q * npfloat Q * npfloat Q)
| EchoDistance (v : npfloat R).

(** How a command ends when it does not return: a click error, reported
    to the user, or a Python exception of the engine, which nothing
    catches. *)
Inductive failure : Type :=
| Click (e : click_exn)
| Python (e : exn).

Section Compare.

Variable d : nat.

(** [DataSourceIO.read]; [None] stands for any exception, which the
    command catches. *)
Variable read : String.string -> option (LoadedSource d).

(** The body of the [compare] command: what it has printed, and how it
    ended ([None]: it returned).  The [validate_binning] callback of the
    [binning] argument runs before the body and can print a line of its
    own; that line is not part of this log. *)
Definition compare (real generated : String.string) (binning : BinningArg)
  : list echo * option failure :=
  match read real with
  | None => ([], Some (Click (FileError real)))
  | Some real_src =>
      match read generated with
      | None => ([], Some (Click (FileError generated)))
      | Some generated_src =>
          if negb (Nat.eqb (length (domain real_src))
                           (length (domain generated_src)))
          then ([], Some (Click UsageError))
          else if negb (Nat.eqb (dimensions binning)
                                (length (domain real_src)))
          then ([], Some (Click UsageError))
          else
            match init (as_source real_src) (as_source generated_src)
                       (as_binning binning) with
            | Raise e => ([], Some (Python e))
            | Ok kpis =>
                match error kpis with
                | Raise e => ([], Some (Python e))
                | Ok err =>
                    match quality kpis with
                    | Raise e => ([EchoError err], Some (Python e))
                    | Ok q =>
                        match distance kpis with
                        | Raise e =>
                            ([EchoError err; EchoQuality q],
                             Some (Python e))
                        | Ok dist =>
                            ([EchoError err; EchoQuality q;
                              EchoDistance dist], None)
                        end
                    end
                end
            end
      end
  end.

End Compare.

Section ConcreteCli.

Import Ascii String.
Local Open Scope string_scope.

(** A reader of unsigned decimal numerals, to run the callbacks on. *)
Definition digit_value (c : ascii) : option Z :=
  let n := nat_of_ascii c in
  if (48 <=? n)%nat && (n <=? 57)%nat then Some (Z.of_nat (n - 48))
  else None.

Fixpoint read_digits (acc : Z) (s : string) : option Z :=
  match s with
  | EmptyString => Some acc
  | String c rest =>
      match digit_value c with
      | None => None
      | Some v => read_digits (10 * acc + v)%Z rest
      end
  end.

Definition decimal_int (s : string) : option Z :=
  match s with
  | EmptyString => None
  | _ => read_digits 0%Z s
  end.

(** A reader that knows ["nan"] and nothing else besides the numerals. *)
Definition decimal_float (s : string) : option (npfloat Q) :=
  if String.eqb s "nan" then Some NaN
  else match decimal_int s with
       | Some z => Some (Fin (inject_Z z))
       | None => None
       end.

(** Files for [compare]: the two data sources on the line used above,
    and one without points. *)
Definition files (name : string) : option (LoadedSource 1) :=
  if String.eqb name "real" then
    Some {| domain := [1%Q]; as_source := src_0_10 |}
  else if String.eqb name "generated" then
    Some {| domain := [1%Q]; as_source := src_0 |}
  else if String.eqb name "empty" then
    Some {| domain := [1%Q]; as_source := source [1%Q] [] |}
  else None.

Definition line_binning : BinningArg :=
  {| dimensions := 1; as_binning := one_bin |}.

End ConcreteCli.

Section ConcreteCliMore.

(** A binning of the plane, for data sources on the line. *)
Definition plane_binning : BinningArg :=
  {| dimensions := 2; as_binning := one_bin |}.

(** The data source without points, as [files] returns it. *)
Definition empty_file : LoadedSource 1 :=
  {| domain := [1%Q]; as_source := source [1%Q] [] |}.

End ConcreteCliMore.

(** * Properties *)

(** ** The pairwise sum has fuel enough *)

Section PairwiseFuel.

Variable A : Type.
Variable add : A -> A -> A.
Variable zero : A.

Lemma pairwise_sum_step (f : nat) (l : list A) :
  pairwise_sum add zero (S f) l
  = if Nat.ltb (length l) 8 then simple_sum add zero l
    else if Nat.leb (length l) 128 then block_sum add zero l
    else add (pairwise_sum add zero f
                (firstn (Nat.div (length l) 2
                         - Nat.modulo (Nat.div (length l) 2) 8) l))
             (pairwise_sum add zero f
                (skipn (Nat.div (length l) 2
                        - Nat.modulo (Nat.div (length l) 2) 8) l)).
Proof. reflexivity. Qed.

(** With the length of the array as fuel the recursion never runs out:
    more fuel changes nothing. *)
Lemma pairwise_sum_fuel (fuel : nat) :
  forall l : list A,
    (length l <= fuel)%nat ->
    pairwise_sum add zero (S fuel) l = pairwise_sum add zero fuel l.
Proof.
  induction fuel as [|f IH]; intros l H.
  - destruct l; [reflexivity | simpl in H; lia].
  - rewrite (pairwise_sum_step (S f) l), (pairwise_sum_step f l).
    destruct (Nat.ltb (length l) 8) eqn:E8; [reflexivity|].
    destruct (Nat.leb (length l) 128) eqn:E128; [reflexivity|].
    apply Nat.leb_gt in E128.
    pose proof (Nat.div_mod_eq (length l) 2) as H2.
    pose proof (Nat.mod_upper_bound (length l) 2) as M2.
    pose proof (Nat.mod_upper_bound (Nat.div (length l) 2) 8) as M8.
    rewrite !IH; [reflexivity | |].
    + rewrite length_skipn. lia.
    + rewrite length_firstn. lia.
Qed.

End PairwiseFuel.

(** ** Sums of rationals *)

Section SumsQ.

Local Open Scope Q_scope.

Lemma fold_left_Qplus_acc (l : list Q) :
  forall a, fold_left Qplus l a == a + py_sum l.
Proof.
  unfold py_sum. induction l as [|x l IH]; intros a; simpl.
  - ring.
  - rewrite (IH (a + x)), (IH (0 + x)). ring.
Qed.

Lemma py_sum_cons (x : Q) (l : list Q) : py_sum (x :: l) == x + py_sum l.
Proof.
  unfold py_sum at 1. simpl. rewrite fold_left_Qplus_acc. ring.
Qed.

Lemma py_sum_total (l : list Q) : py_sum l == total l.
Proof.
  induction l as [|x l IH].
  - reflexivity.
  - rewrite py_sum_cons, IH. reflexivity.
Qed.

Lemma total_nonneg (l : list Q) :
  Forall (fun x => 0 <= x) l -> 0 <= total l.
Proof.
  induction 1 as [|x l Hx _ IH].
  - apply Qle_refl.
  - change (0 <= x + total l). cbv beta in Hx. lra.
Qed.

Lemma Qpos_b_true (x : Q) : Qpos_b x = true <-> 0 < x.
Proof.
  unfold Qpos_b. rewrite negb_true_iff.
  destruct (Qle_bool x 0) eqn:E.
  - apply Qle_bool_iff in E. split; [discriminate | lra].
  - split; [intros _ | reflexivity].
    apply Qnot_le_lt. intros H. apply Qle_bool_iff in H. congruence.
Qed.

Lemma Qpos_b_false (x : Q) : Qpos_b x = false <-> x <= 0.
Proof.
  unfold Qpos_b. rewrite negb_false_iff. apply Qle_bool_iff.
Qed.

Lemma np_div_finite (a b : Q) :
  ~ b == 0 -> np_div a b = Fin (a / b).
Proof.
  intros H. unfold np_div.
  destruct (Qeq_bool b 0) eqn:E; [|reflexivity].
  apply Qeq_bool_iff in E. contradiction.
Qed.

Lemma np_div_zero (a b : Q) :
  b == 0 -> is_finite (np_div a b) = false.
Proof.
  intros H. unfold np_div.
  apply Qeq_bool_iff in H. rewrite H.
  destruct (Qeq_bool a 0); [reflexivity|].
  destruct (Qle_bool a 0); reflexivity.
Qed.

Lemma Qdiv_unit_interval (a b : Q) :
  0 <= a -> a <= b -> 0 < b -> 0 <= a / b /\ a / b <= 1.
Proof.
  intros Ha Hab Hb. split.
  - apply Qle_shift_div_l; [assumption | lra].
  - apply Qle_shift_div_r; [assumption | lra].
Qed.

(** *** numpy's pairwise sum, in exact arithmetic *)

Lemma fold_left_Qplus_total (l : list Q) (a : Q) :
  fold_left Qplus l a == a + total l.
Proof.
  rewrite fold_left_Qplus_acc, py_sum_total. reflexivity.
Qed.

Lemma total_app (l1 l2 : list Q) : total (l1 ++ l2) == total l1 + total l2.
Proof.
  induction l1 as [|x l1 IH]; simpl.
  - ring.
  - rewrite IH. ring.
Qed.

Lemma total_firstn_skipn (n : nat) (l : list Q) :
  total (firstn n l) + total (skipn n l) == total l.
Proof.
  rewrite <- total_app, firstn_skipn. reflexivity.
Qed.

Lemma total_add8 (r : list Q) :
  forall blk : list Q,
    length r = length blk ->
    total (add8 Qplus r blk) == total r + total blk.
Proof.
  unfold add8.
  induction r as [|x r IH]; intros [|y blk] H; try discriminate H; simpl.
  - ring.
  - injection H as H. rewrite (IH blk H). ring.
Qed.

Lemma length_add8 (r blk : list Q) :
  length r = length blk -> length (add8 Qplus r blk) = length r.
Proof.
  intros H. unfold add8. rewrite length_map, length_combine. lia.
Qed.

Lemma unroll8_total (k : nat) :
  forall r l : list Q,
    length r = 8%nat -> (8 * k <= length l)%nat ->
    length (fst (unroll8 Qplus k r l)) = 8%nat /\
    total (fst (unroll8 Qplus k r l)) + total (snd (unroll8 Qplus k r l))
    == total r + total l.
Proof.
  induction k as [|k IH]; intros r l Hr Hl.
  - simpl. split; [exact Hr | reflexivity].
  - cbn [unroll8].
    assert (Hb : length r = length (firstn 8 l))
      by (rewrite length_firstn; lia).
    destruct (IH (add8 Qplus r (firstn 8 l)) (skipn 8 l)) as [H8 Ht].
    + rewrite length_add8; assumption.
    + rewrite length_skipn. lia.
    + split; [exact H8|].
      rewrite Ht, (total_add8 _ _ Hb).
      rewrite <- (total_firstn_skipn 8 l). ring.
Qed.

Lemma tree8_total (r : list Q) :
  length r = 8%nat -> tree8 Qplus 0 r == total r.
Proof.
  intros H.
  do 9 (destruct r as [|? r]; try discriminate H).
  simpl. ring.
Qed.

Lemma block_sum_total (l : list Q) :
  (8 <= length l)%nat -> block_sum Qplus 0 l == total l.
Proof.
  intros H. unfold block_sum.
  destruct (unroll8_total (Nat.div (length l) 8 - 1)
              (firstn 8 l) (skipn 8 l)) as [H8 Ht].
  - rewrite length_firstn. lia.
  - rewrite length_skipn.
    pose proof (Nat.div_mod_eq (length l) 8). lia.
  - destruct (unroll8 Qplus (Nat.div (length l) 8 - 1)
                      (firstn 8 l) (skipn 8 l)) as [r rest].
    cbn [fst snd] in H8, Ht.
    rewrite fold_left_Qplus_total, (tree8_total _ H8), Ht.
    apply total_firstn_skipn.
Qed.

Lemma pairwise_sum_total (fuel : nat) :
  forall l : list Q, pairwise_sum Qplus 0 fuel l == total l.
Proof.
  induction fuel as [|f IH]; intros l; cbn [pairwise_sum];
    destruct (Nat.ltb (length l) 8) eqn:E8;
    try (apply py_sum_total);
    apply Nat.ltb_ge in E8;
    destruct (Nat.leb (length l) 128);
    try (apply block_sum_total; exact E8).
  rewrite !IH. apply total_firstn_skipn.
Qed.

(** In exact arithmetic numpy's sum is the sum. *)
Lemma ndarray_sum_total (l : list Q) : ndarray_sum l == total l.
Proof.
  unfold ndarray_sum, add_reduce. rewrite pairwise_sum_total. ring.
Qed.

End SumsQ.

(** ** The error metric *)

Section ErrorMetric.

Local Open Scope Q_scope.

Variable d : nat.

(** Construction on two grids of one shape: [diff] is the entry-wise
    difference, generated minus real. *)
Lemma init_same_shape (real gen : DataSource d) (b : Binning) (self : KPIs d) :
  init real gen b = Ok self ->
  length (__h1f self) = length (__h2f self) ->
  __diff self = map (fun p => fst p - snd p)
                    (combine (__h2f self) (__h1f self)).
Proof.
  unfold init, bind, np_sub, flatten. intros H Hlen.
  destruct (Nat.eqb (length (values (get_histogram gen b)))
                    (length (values (get_histogram real b)))) eqn:E.
  - injection H as <-. reflexivity.
  - apply Nat.eqb_neq in E. exfalso. apply E.
    destruct (values (get_histogram gen b)) as [|x [|x' t]];
      destruct (values (get_histogram real b)) as [|y [|y' u]];
      try discriminate H; injection H as <-; simpl in Hlen |- *;
      congruence.
Qed.

Lemma init_fields (real gen : DataSource d) (b : Binning) (self : KPIs d) :
  init real gen b = Ok self ->
  __rd self = real /\ __gd self = gen /\ __binning self = b /\
  __h1 self = get_histogram real b /\ __h2 self = get_histogram gen b /\
  __h1f self = values (__h1 self) /\ __h2f self = values (__h2 self).
Proof.
  unfold init, bind, flatten. intros H.
  destruct (np_sub _ _); [|discriminate].
  injection H as <-. simpl. repeat split.
Qed.

Lemma sum_positive_diff (h2 : list Q) :
  forall h1 : list Q,
    py_sum (filter Qpos_b (map (fun p => fst p - snd p) (combine h2 h1)))
    == over_generation h1 h2.
Proof.
  induction h2 as [|g t2 IH]; intros [|r t1]; simpl; try reflexivity.
  destruct (Qpos_b (g - r)).
  - rewrite py_sum_cons, IH. reflexivity.
  - rewrite IH. ring.
Qed.

Lemma over_generation_nonneg (h1 : list Q) :
  forall h2 : list Q, 0 <= over_generation h1 h2.
Proof.
  induction h1 as [|r t1 IH]; intros [|g t2]; simpl; try apply Qle_refl.
  specialize (IH t2).
  destruct (Qpos_b (g - r)) eqn:E.
  - apply Qpos_b_true in E. lra.
  - lra.
Qed.

Lemma over_generation_le_total (h1 : list Q) :
  forall h2 : list Q,
    Forall (fun x => 0 <= x) h1 -> Forall (fun x => 0 <= x) h2 ->
    over_generation h1 h2 <= total h2.
Proof.
  induction h1 as [|r t1 IH]; intros h2 H1 H2.
  - simpl. apply total_nonneg. assumption.
  - destruct h2 as [|g t2]; simpl.
    + apply Qle_refl.
    + inversion H1 as [|? ? Hr Ht1]; subst.
      inversion H2 as [|? ? Hg Ht2]; subst.
      specialize (IH t2 Ht1 Ht2). fold (total t2).
      destruct (Qpos_b (g - r)); lra.
Qed.

Lemma error_nonzero_mass (self : KPIs d) :
  ~ total (__h2f self) == 0 ->
  error self = Ok (Fin (py_sum (filter Qpos_b (__diff self))
                        / py_sum (__h2f self))).
Proof.
  intros Hm. unfold error.
  assert (Hs : ~ py_sum (__h2f self) == 0) by (rewrite py_sum_total; exact Hm).
  rewrite (np_div_finite _ Hs).
  destruct (__h2f self) as [|g t].
  - exfalso. apply Hm. reflexivity.
  - destruct (filter Qpos_b (__diff self)); reflexivity.
Qed.

End ErrorMetric.

(** ** Claims on the error metric and the per-bin score *)

Section ErrorClaims.

Local Open Scope Q_scope.

Variable d : nat.

(** C3.  On two histograms of one shape, [diff] is the generated grid
    minus the real grid, entry by entry; when the generated mass is not
    zero, [error()] returns the sum of the positive entries of [diff]
    divided by [sum(h2f)]; and when moreover all bin values are
    non-negative and [sum(h2f) > 0], the returned value lies in [0, 1]. *)
Theorem error_formula_and_range
  (real gen : DataSource d) (b : Binning) (self : KPIs d) :
  init real gen b = Ok self ->
  length (__h1f self) = length (__h2f self) ->
  (forall i : nat,
      (i < length (__h2f self))%nat ->
      nth i (__diff self) 0 = nth i (__h2f self) 0 - nth i (__h1f self) 0) /\
  (~ total (__h2f self) == 0 ->
   exists q : Q,
     error self = Ok (Fin q) /\ q == error_ref (__h1f self) (__h2f self)) /\
  (Forall (fun x => 0 <= x) (__h1f self) ->
   Forall (fun x => 0 <= x) (__h2f self) ->
   0 < total (__h2f self) ->
   exists q : Q, error self = Ok (Fin q) /\ 0 <= q /\ q <= 1).
Proof.
  intros Hinit Hlen.
  pose proof (init_same_shape _ _ _ Hinit Hlen) as Hdiff.
  assert (Hval : ~ total (__h2f self) == 0 ->
                 exists q : Q,
                   error self = Ok (Fin q) /\
                   q == error_ref (__h1f self) (__h2f self)).
  { intros Hm. eexists. split; [apply error_nonzero_mass; exact Hm|].
    unfold error_ref.
    rewrite Hdiff, sum_positive_diff, py_sum_total. reflexivity. }
  split; [|split].
  - intros i Hi. rewrite Hdiff.
    change 0 with ((fun p : Q * Q => fst p - snd p) (0, 0)) at 1.
    rewrite map_nth, combine_nth by (symmetry; exact Hlen). reflexivity.
  - exact Hval.
  - intros H1 H2 Hpos.
    destruct Hval as [q [Hq Heq]]; [lra|].
    exists q. split; [exact Hq|].
    pose proof (over_generation_nonneg (__h1f self) (__h2f self)) as Hn.
    pose proof (over_generation_le_total H1 H2) as Hle.
    destruct (Qdiv_unit_interval Hn Hle Hpos) as [Ha Hb].
    unfold error_ref in Heq. rewrite Heq. split; assumption.
Qed.

(** C4.  The per-bin score: 1 when [r == 0] and [delta == 0]; 0 when
    [r == 0] and [delta != 0], or when [|delta| > r]; and
    [1 - |delta| / r] otherwise.  (It holds for every [r], so for every
    real count [r >= 0].) *)
Theorem get_quality_cases (r delta : Q) :
  (r == 0 /\ delta == 0 -> get_quality r delta = 1) /\
  ((r == 0 /\ ~ delta == 0) \/ r < Qabs delta -> get_quality r delta = 0) /\
  (~ r == 0 /\ Qabs delta <= r ->
   get_quality r delta = 1 - Qabs delta / r).
Proof.
  unfold get_quality.
  destruct (Qeq_bool r 0) eqn:Er;
    [apply Qeq_bool_iff in Er | apply Qeq_bool_neq in Er];
    (destruct (Qeq_bool delta 0) eqn:Ed;
     [apply Qeq_bool_iff in Ed | apply Qeq_bool_neq in Ed]);
    (destruct (Qle_bool (Qabs delta) r) eqn:El;
     [apply Qle_bool_iff in El
     | assert (Hlt : r < Qabs delta)
         by (apply Qnot_le_lt; intros H; apply Qle_bool_iff in H;
             congruence);
       clear El]);
    simpl; (split; [|split]); intros H; try reflexivity;
    exfalso; try solve [intuition lra].
  assert (Ha : Qabs delta == 0) by (rewrite Ed; reflexivity).
  lra.
Qed.

(** C8 (amended).  When the generated and the real grid hold the same
    values, bin by bin, and the generated mass is not zero, [error()]
    returns 0. *)
Theorem error_identical_histograms
  (real gen : DataSource d) (b : Binning) (self : KPIs d) :
  init real gen b = Ok self ->
  Forall2 Qeq (__h2f self) (__h1f self) ->
  ~ total (__h2f self) == 0 ->
  exists q : Q, error self = Ok (Fin q) /\ q == 0.
Proof.
  intros Hinit Hsame Hm.
  assert (Hlen : length (__h1f self) = length (__h2f self))
    by (symmetry; eapply Forall2_length; exact Hsame).
  rewrite (error_nonzero_mass _ Hm).
  rewrite (init_same_shape _ _ _ Hinit Hlen).
  eexists. split; [reflexivity|].
  assert (Hz : filter Qpos_b
                 (map (fun p => fst p - snd p)
                      (combine (__h2f self) (__h1f self))) = []).
  { clear - Hsame. induction Hsame as [|g r t2 t1 Hgr _ IH]; simpl.
    - reflexivity.
    - assert (E : Qpos_b (g - r) = false) by (apply Qpos_b_false; lra).
      rewrite E. exact IH. }
  rewrite Hz. unfold py_sum at 1. simpl. field.
  rewrite py_sum_total. exact Hm.
Qed.

End ErrorClaims.

Section ErrorExamples.

Local Open Scope Q_scope.

Ltac all_nonneg := repeat (apply Forall_cons; [lra|]); apply Forall_nil.

(** Scenario 1 of the specification: [error() = 1 / 4]. *)
Example scenario1_error :
  exists q : Q, error scenario1 = Ok (Fin q) /\ q == 1 # 4.
Proof. eexists. split; [reflexivity | vm_compute; reflexivity]. Qed.

Lemma error_formula_and_range_witness :
  init (source [3; 1] []) (source [2; 2] []) bins_5_5 = Ok scenario1 /\
  length (__h1f scenario1) = length (__h2f scenario1) /\
  exists q : Q, error scenario1 = Ok (Fin q) /\ 0 <= q /\ q <= 1.
Proof.
  split; [reflexivity | split; [reflexivity|]].
  apply (error_formula_and_range
           (source [3; 1] []) (source [2; 2] []) bins_5_5
           (self := scenario1) eq_refl eq_refl).
  - simpl. all_nonneg.
  - simpl. all_nonneg.
  - simpl. lra.
Defined.

Lemma get_quality_cases_witness :
  get_quality 4 (-1) = 1 - Qabs (-1) / 4.
Proof.
  apply (get_quality_cases 4 (-1)). split.
  - intros H. vm_compute in H. discriminate H.
  - vm_compute. discriminate.
Defined.

(** C8, as stated, fails: two identical all-zero histograms give
    [0 / 0.0], which numpy evaluates to [nan]. *)
Lemma error_identical_zero_mass :
  init (source [0] []) (source [0] []) one_bin = Ok zero_mass /\
  Forall2 Qeq (__h2f zero_mass) (__h1f zero_mass) /\
  error zero_mass = Ok NaN /\
  ~ (exists q : Q, error zero_mass = Ok (Fin q) /\ q == 0).
Proof.
  split; [reflexivity|]. split; [|split].
  - constructor; [reflexivity | constructor].
  - reflexivity.
  - intros [q [H _]]. discriminate H.
Qed.

Lemma error_identical_histograms_witness :
  init (source [3; 1] []) (source [3; 1] []) bins_5_5 = Ok same_3_1 /\
  Forall2 Qeq (__h2f same_3_1) (__h1f same_3_1) /\
  ~ total (__h2f same_3_1) == 0 /\
  exists q : Q, error same_3_1 = Ok (Fin q) /\ q == 0.
Proof.
  assert (Hsame : Forall2 Qeq (__h2f same_3_1) (__h1f same_3_1))
    by (repeat constructor).
  assert (Hm : ~ total (__h2f same_3_1) == 0)
    by (intros H; vm_compute in H; discriminate H).
  split; [reflexivity|]. split; [exact Hsame|]. split; [exact Hm|].
  exact (error_identical_histograms
           (source [3; 1] []) (source [3; 1] []) bins_5_5
           (self := same_3_1) eq_refl Hsame Hm).
Defined.

End ErrorExamples.

(** ** The quality metric *)

Section QualityMetric.

Local Open Scope Q_scope.

Variable d : nat.

Lemma get_quality_range (r delta : Q) :
  0 <= get_quality r delta /\ get_quality r delta <= 1.
Proof.
  unfold get_quality.
  destruct (Qeq_bool r 0 && Qeq_bool delta 0); [lra|].
  destruct (Qeq_bool r 0) eqn:Er; simpl; [lra|].
  destruct (Qle_bool (Qabs delta) r) eqn:El; simpl; [|lra].
  apply Qeq_bool_neq in Er. apply Qle_bool_iff in El.
  pose proof (Qabs_nonneg delta) as Ha.
  assert (Hr : 0 < r) by lra.
  destruct (Qdiv_unit_interval Ha El Hr) as [H0 H1].
  revert H0 H1. generalize (Qabs delta / r). intros t H0 H1. lra.
Qed.

(** Masking the three grids with one mask computed from the real counts
    selects the bins whose real count passes the test. *)
Lemma select_zip3 (p : Q -> bool) (rs : list Q) :
  forall ds vs : list Q,
    length ds = length rs -> length vs = length rs ->
    zip3 (select (map p rs) rs) (select (map p rs) ds)
         (select (map p rs) vs)
    = filter (fun b => p (bin_r b)) (zip3 rs ds vs).
Proof.
  unfold zip3.
  induction rs as [|r rs IH]; intros [|dl ds] [|v vs] Hd Hv;
    try discriminate; simpl.
  - reflexivity.
  - injection Hd as Hd. injection Hv as Hv.
    unfold bin_r at 1. simpl.
    destruct (p r); simpl; rewrite (IH ds vs Hd Hv); reflexivity.
Qed.

Lemma select_vols (p : Q -> bool) (rs : list Q) :
  forall ds vs : list Q,
    length ds = length rs -> length vs = length rs ->
    select (map p rs) vs
    = map bin_vol (filter (fun b => p (bin_r b)) (zip3 rs ds vs)).
Proof.
  unfold zip3.
  induction rs as [|r rs IH]; intros [|dl ds] [|v vs] Hd Hv;
    try discriminate; simpl.
  - reflexivity.
  - injection Hd as Hd. injection Hv as Hv.
    unfold bin_r at 1. simpl.
    destruct (p r); simpl; rewrite (IH ds vs Hd Hv); reflexivity.
Qed.

Lemma any_mask (p : Q -> bool) (rs : list Q) :
  forall ds vs : list Q,
    length ds = length rs -> length vs = length rs ->
    (any (map p rs) = false
     <-> filter (fun b => p (bin_r b)) (zip3 rs ds vs) = []).
Proof.
  unfold zip3, any.
  induction rs as [|r rs IH]; intros [|dl ds] [|v vs] Hd Hv;
    try discriminate; simpl.
  - tauto.
  - injection Hd as Hd. injection Hv as Hv.
    unfold bin_r at 1. simpl.
    destruct (p r); simpl.
    + split; discriminate.
    + apply IH; assumption.
Qed.

Lemma mask_select_ok (A : Type) (p : Q -> bool) (rs : list Q) (a : list A) :
  length a = length rs ->
  mask_select (map p rs) a = Ok (select (map p rs) a).
Proof.
  intros H. unfold mask_select.
  rewrite length_map, H, Nat.eqb_refl. reflexivity.
Qed.

Lemma zip3_vols_positive (rs : list Q) :
  forall ds vs : list Q,
    Forall (fun v => 0 < v) vs ->
    Forall (fun b => 0 < bin_vol b) (zip3 rs ds vs).
Proof.
  unfold zip3.
  induction rs as [|r rs IH]; intros [|dl ds] [|v vs] H; simpl;
    try apply Forall_nil.
  inversion H as [|? ? Hv Hvs]; subst.
  apply Forall_cons; [exact Hv | apply IH; exact Hvs].
Qed.

Lemma weighted_sum_le (part : list bin) :
  Forall (fun b => 0 < bin_vol b) part ->
  0 <= total (map (fun b => get_quality (bin_r b) (bin_delta b) * bin_vol b)
                  part)
  /\ total (map (fun b => get_quality (bin_r b) (bin_delta b) * bin_vol b)
                part)
     <= total (map bin_vol part).
Proof.
  induction 1 as [|b part Hb _ [IH0 IH1]]; simpl.
  - split; apply Qle_refl.
  - destruct (get_quality_range (bin_r b) (bin_delta b)) as [H0 H1].
    revert H0 H1. generalize (get_quality (bin_r b) (bin_delta b)).
    intros s H0 H1.
    assert (Hs : 0 <= s * bin_vol b) by (apply Qmult_le_0_compat; lra).
    assert (Ht : s * bin_vol b <= 1 * bin_vol b)
      by (apply Qmult_le_compat_r; lra).
    split; lra.
Qed.

Lemma total_vols_positive (part : list bin) :
  Forall (fun b => 0 < bin_vol b) part -> part <> [] ->
  0 < total (map bin_vol part).
Proof.
  intros H Hne. destruct H as [|b part Hb Hrest]; [congruence|].
  simpl. cbv beta in Hb.
  assert (Hn : 0 <= total (map bin_vol part)).
  { apply total_nonneg. apply Forall_map.
    eapply Forall_impl; [|exact Hrest]. intros a Ha. cbv beta in Ha. lra. }
  lra.
Qed.

Lemma score_sum (part : list bin) :
  py_sum (map (fun p => match p with
                        | (r, delta, vol) => get_quality r delta * vol
                        end) part)
  == total (map (fun b => get_quality (bin_r b) (bin_delta b) * bin_vol b)
                part).
Proof.
  rewrite py_sum_total.
  induction part as [|[[r dl] v] part IH]; simpl.
  - reflexivity.
  - rewrite IH. reflexivity.
Qed.

(** One component of [quality()], for a mask computed from the real
    counts by the test [p]. *)
Lemma quality_of_partition (self : KPIs d) (p : Q -> bool) :
  length (__diff self) = length (__h1f self) ->
  length (volumes (binning (__h2 self))) = length (__h1f self) ->
  Forall (fun v => 0 < v) (volumes (binning (__h2 self))) ->
  exists v : npfloat Q,
    quality_of self (map p (__h1f self)) = Ok v /\
    partition_score (filter (fun b => p (bin_r b)) (bins self)) v.
Proof.
  intros Hd Hv Hpos. unfold quality_of, bins, flatten.
  pose proof (any_mask p (__h1f self) _ _ Hd Hv) as Hany.
  pose proof (select_zip3 p (__h1f self) _ _ Hd Hv) as Hzip.
  pose proof (select_vols p (__h1f self) _ _ Hd Hv) as Hvols.
  pose proof (zip3_vols_positive (__h1f self) (__diff self) Hpos) as Hall.
  set (part := filter (fun b => p (bin_r b))
                 (zip3 (__h1f self) (__diff self)
                       (volumes (binning (__h2 self))))) in *.
  assert (Hpart : Forall (fun b => 0 < bin_vol b) part).
  { apply Forall_forall. intros b Hb. apply filter_In in Hb.
    destruct Hb as [Hb _]. revert b Hb. apply Forall_forall. exact Hall. }
  destruct (any (map p (__h1f self))) eqn:Ea; simpl.
  - assert (Hne : part <> []).
    { intros E. apply Hany in E. congruence. }
    rewrite (mask_select_ok p (__h1f self) (__h1f self) eq_refl).
    rewrite (mask_select_ok p (__h1f self) (__diff self) Hd).
    rewrite (mask_select_ok p (__h1f self) _ Hv).
    simpl. rewrite Hzip, Hvols.
    pose proof (total_vols_positive Hpart Hne) as Htot.
    destruct (weighted_sum_le Hpart) as [Hw0 Hw1].
    assert (Hden : ndarray_sum (map bin_vol part)
                   == total (map bin_vol part))
      by apply ndarray_sum_total.
    assert (Hnz : ~ ndarray_sum (map bin_vol part) == 0)
      by (rewrite Hden; lra).
    rewrite (np_div_finite _ Hnz).
    eexists. split; [reflexivity|].
    eexists. split; [reflexivity|].
    destruct (Qdiv_unit_interval Hw0 Hw1 Htot) as [Hr0 Hr1].
    fold (weighted_mean part) in Hr0, Hr1.
    match goal with
    | |- (?q == 2 <-> _) /\ _ => assert (Hq : q == weighted_mean part)
    end.
    { unfold weighted_mean. rewrite score_sum, Hden. reflexivity. }
    revert Hq Hr0 Hr1. generalize (weighted_mean part). intros w Hq Hr0 Hr1.
    split; [|split].
    + split; [intros E; exfalso; lra | intros E; contradiction].
    + intros E. contradiction.
    + intros _. split; [exact Hq | split; lra].
  - assert (He : part = []) by (apply Hany; reflexivity).
    eexists. split; [reflexivity|].
    exists 2. split; [reflexivity|]. split; [|split].
    + split; [intros _; exact He | reflexivity].
    + reflexivity.
    + intros Hne. contradiction.
Qed.

Lemma abi_mask (self : KPIs d) :
  abi self = map (fun _ => true) (__h1f self).
Proof.
  unfold abi. induction (__h1f self) as [|r l IH]; simpl;
    [reflexivity | rewrite IH; reflexivity].
Qed.

End QualityMetric.

Section QualityClaims.

Local Open Scope Q_scope.

Variable d : nat.

(** C5 (amended).  In exact arithmetic, on histograms of one shape over a
    binning whose volumes grid has that shape and holds positive volumes,
    [quality()] returns a triple, one component per partition: all bins,
    the bins with real count [r > 0], the bins with [r == 0].  Each
    component is the sentinel 2 if and only if its partition selects no
    bin, and otherwise the volume-weighted mean of the per-bin scores
    over the partition, a value in [0, 1].  (In [float64] the two sums of
    the mean are rounded differently and the bound can fail by rounding,
    as the example on sixteen bins below shows.) *)
Theorem quality_partitions
  (real gen : DataSource d) (b : Binning) (self : KPIs d) :
  init real gen b = Ok self ->
  length (__h1f self) = length (__h2f self) ->
  length (volumes (binning (__h2 self))) = length (__h1f self) ->
  Forall (fun v => 0 < v) (volumes (binning (__h2 self))) ->
  (forall c : bin, all_bins c = true) /\
  (forall c : bin, nonempty_bins c = true <-> 0 < bin_r c) /\
  (forall c : bin, empty_bins c = true <-> bin_r c == 0) /\
  exists qa qn qe : npfloat Q,
    quality self = Ok (qa, qn, qe) /\
    partition_score (filter all_bins (bins self)) qa /\
    partition_score (filter nonempty_bins (bins self)) qn /\
    partition_score (filter empty_bins (bins self)) qe.
Proof.
  intros Hinit Hlen Hv Hpos.
  assert (Hd : length (__diff self) = length (__h1f self)).
  { rewrite (init_same_shape _ _ _ Hinit Hlen).
    rewrite length_map, length_combine. lia. }
  split; [reflexivity|].
  split; [intros c; apply Qpos_b_true|].
  split; [intros c; apply Qeq_bool_iff|].
  destruct (quality_of_partition self (fun _ => true) Hd Hv Hpos)
    as [qa [Ha Sa]].
  destruct (quality_of_partition self Qpos_b Hd Hv Hpos) as [qn [Hn Sn]].
  destruct (quality_of_partition self Qzero_b Hd Hv Hpos) as [qe [He Se]].
  exists qa, qn, qe. unfold quality.
  rewrite abi_mask, Ha. unfold nebi, ebi. simpl.
  rewrite Hn. simpl. rewrite He. simpl.
  split; [reflexivity|]. split; [exact Sa|]. split; [exact Sn | exact Se].
Qed.

End QualityClaims.

Section QualityExamples.

Local Open Scope Q_scope.

(** Scenario 1 of the specification: [quality()] is
    [(1/3, 1/3, 2.0)]. *)
Example scenario1_quality :
  exists qa qn : Q,
    quality scenario1 = Ok (Fin qa, Fin qn, Fin 2) /\
    qa == 1 # 3 /\ qn == 1 # 3.
Proof.
  eexists. eexists. split; [reflexivity|].
  split; vm_compute; reflexivity.
Qed.

Lemma quality_partitions_witness :
  init (source [3; 1] []) (source [2; 2] []) bins_5_5 = Ok scenario1 /\
  length (__h1f scenario1) = length (__h2f scenario1) /\
  length (volumes (binning (__h2 scenario1))) = length (__h1f scenario1) /\
  Forall (fun v => 0 < v) (volumes (binning (__h2 scenario1))) /\
  exists qa qn qe : npfloat Q,
    quality scenario1 = Ok (qa, qn, qe) /\
    partition_score (filter all_bins (bins scenario1)) qa /\
    partition_score (filter nonempty_bins (bins scenario1)) qn /\
    partition_score (filter empty_bins (bins scenario1)) qe.
Proof.
  assert (Hpos : Forall (fun v => 0 < v)
                        (volumes (binning (__h2 scenario1)))).
  { simpl. repeat (apply Forall_cons; [lra|]). apply Forall_nil. }
  split; [reflexivity|]. split; [reflexivity|]. split; [reflexivity|].
  split; [exact Hpos|].
  apply (quality_partitions
           (source [3; 1] []) (source [2; 2] []) bins_5_5
           (self := scenario1) eq_refl eq_refl eq_refl Hpos).
Defined.

End QualityExamples.

(** ** [array_split] *)

Section ArraySplit.

Variable A : Type.

Lemma slices_by_points (ary : list A) (sizes : list nat) :
  forall off : nat,
    map (fun i => slice ary (nth i (off :: cumsum_from off sizes) 0%nat)
                            (nth (S i) (off :: cumsum_from off sizes) 0%nat))
        (seq 0 (length sizes))
    = slices (skipn off ary) sizes.
Proof.
  induction sizes as [|n rest IH]; intros off.
  - reflexivity.
  - cbn [length seq map slices cumsum_from]. f_equal.
    + unfold slice. cbn [nth]. f_equal. lia.
    + rewrite <- seq_shift, map_map, skipn_skipn.
      rewrite (Nat.add_comm n off). rewrite <- IH.
      apply map_ext. intros i. reflexivity.
Qed.

Lemma length_section_sizes (Ntotal n : nat) :
  length (section_sizes Ntotal (S n)) = S n.
Proof.
  unfold section_sizes. rewrite length_app, !repeat_length.
  pose proof (Nat.mod_upper_bound Ntotal (S n)). lia.
Qed.

Lemma array_split_slices (ary : list A) (n : nat) :
  array_split ary (S n) = slices ary (section_sizes (length ary) (S n)).
Proof.
  unfold array_split, cumsum. cbn [cumsum_from]. cbn [Nat.add].
  replace (seq 0 (S n))
    with (seq 0 (length (section_sizes (length ary) (S n))))
    by (rewrite length_section_sizes; reflexivity).
  rewrite slices_by_points. reflexivity.
Qed.

Lemma firstn_plus (n m : nat) :
  forall l : list A, firstn (n + m) l = firstn n l ++ firstn m (skipn n l).
Proof.
  induction n as [|n IH]; intros l.
  - reflexivity.
  - destruct l as [|x l]; simpl.
    + rewrite firstn_nil. reflexivity.
    + rewrite IH. reflexivity.
Qed.

Lemma concat_slices (sizes : list nat) :
  forall l : list A, concat (slices l sizes) = firstn (list_sum sizes) l.
Proof.
  induction sizes as [|n rest IH]; intros l; simpl.
  - reflexivity.
  - rewrite IH, firstn_plus. reflexivity.
Qed.

Lemma list_sum_repeat (a k : nat) : list_sum (repeat a k) = (k * a)%nat.
Proof.
  induction k as [|k IH]; simpl; [reflexivity | rewrite IH; reflexivity].
Qed.

Lemma list_sum_section_sizes (Ntotal n : nat) :
  list_sum (section_sizes Ntotal (S n)) = Ntotal.
Proof.
  unfold section_sizes. rewrite list_sum_app, !list_sum_repeat.
  pose proof (Nat.mod_upper_bound Ntotal (S n)) as Hb.
  pose proof (Nat.div_mod_eq Ntotal (S n)) as He.
  revert Hb He.
  generalize (Nat.div Ntotal (S n)) (Nat.modulo Ntotal (S n)).
  intros q e Hb He. specialize (Hb (Nat.neq_succ_0 n)). nia.
Qed.

(** The sections of [array_split], put together again, are the array. *)
Lemma concat_array_split (ary : list A) (n : nat) :
  concat (array_split ary (S n)) = ary.
Proof.
  rewrite array_split_slices, concat_slices, list_sum_section_sizes.
  apply firstn_all.
Qed.

Lemma length_array_split (ary : list A) (n : nat) :
  length (array_split ary n) = n.
Proof.
  unfold array_split. rewrite length_map, length_seq. reflexivity.
Qed.

Lemma slices_singletons (l : list A) :
  forall sizes : list nat,
    slices l (repeat 1%nat (length l) ++ sizes)
    = map (fun x => [x]) l ++ slices [] sizes.
Proof.
  induction l as [|x l IH]; intros sizes; simpl.
  - reflexivity.
  - rewrite IH. reflexivity.
Qed.

Lemma slices_nil_zero (k : nat) :
  slices (@nil A) (repeat 0%nat k) = repeat [] k.
Proof.
  induction k as [|k IH]; simpl; [reflexivity | rewrite IH; reflexivity].
Qed.

(** Fewer rows than sections: one row per section while they last, then
    empty sections. *)
Lemma array_split_short (ary : list A) (n : nat) :
  (length ary < S n)%nat ->
  array_split ary (S n)
  = map (fun x => [x]) ary ++ repeat [] (S n - length ary).
Proof.
  intros H. rewrite array_split_slices. unfold section_sizes.
  rewrite (Nat.div_small _ _ H), (Nat.mod_small _ _ H).
  rewrite slices_singletons, slices_nil_zero. reflexivity.
Qed.

End ArraySplit.

Example array_split_5_into_2 :
  array_split [1; 2; 3; 4; 5]%nat 2 = [[1; 2; 3]; [4; 5]]%nat.
Proof. reflexivity. Qed.

Example array_split_3_into_16 :
  array_split [1; 2; 3]%nat 16
  = [[1]; [2]; [3]; []; []; []; []; []; []; []; []; []; []; []; []; []]%nat.
Proof. reflexivity. Qed.

(** ** Sums of numpy floats *)

Section SumsNp.

Local Open Scope R_scope.

Lemma np_add_comm (a b : npfloat R) : np_add a b = np_add b a.
Proof.
  destruct a, b; simpl; try reflexivity. f_equal. apply Rplus_comm.
Qed.

Lemma np_add_assoc (a b c : npfloat R) :
  np_add a (np_add b c) = np_add (np_add a b) c.
Proof.
  destruct a, b, c; simpl; try reflexivity.
  f_equal. symmetry. apply Rplus_assoc.
Qed.

Lemma np_add_0_l (a : npfloat R) : np_add (Fin 0) a = a.
Proof.
  destruct a; simpl; try reflexivity. f_equal. apply Rplus_0_l.
Qed.

Lemma np_add_0_r (a : npfloat R) : np_add a (Fin 0) = a.
Proof. rewrite np_add_comm. apply np_add_0_l. Qed.

Lemma fold_left_np_add (l : list (npfloat R)) :
  forall a : npfloat R, fold_left np_add l a = np_add a (py_sum_np l).
Proof.
  unfold py_sum_np. induction l as [|x l IH]; intros a; cbn [fold_left].
  - symmetry. apply np_add_0_r.
  - rewrite (IH (np_add a x)), (IH (np_add (Fin 0) x)).
    rewrite np_add_0_l. symmetry. apply np_add_assoc.
Qed.

Lemma py_sum_np_cons (x : npfloat R) (l : list (npfloat R)) :
  py_sum_np (x :: l) = np_add x (py_sum_np l).
Proof.
  unfold py_sum_np at 1. cbn [fold_left].
  rewrite fold_left_np_add, np_add_0_l. reflexivity.
Qed.

Lemma py_sum_np_app (l1 l2 : list (npfloat R)) :
  py_sum_np (l1 ++ l2) = np_add (py_sum_np l1) (py_sum_np l2).
Proof.
  induction l1 as [|x l1 IH]; simpl.
  - symmetry. apply np_add_0_l.
  - rewrite !py_sum_np_cons, IH. apply np_add_assoc.
Qed.

Lemma py_sum_np_finite (l : list R) :
  py_sum_np (map Fin l) = Fin (sumR l).
Proof.
  induction l as [|x l IH].
  - reflexivity.
  - cbn [map]. rewrite py_sum_np_cons, IH. reflexivity.
Qed.

Lemma fold_left_Rplus_acc (l : list R) :
  forall a : R, fold_left Rplus l a = a + np_sum l.
Proof.
  unfold np_sum. induction l as [|x l IH]; intros a; simpl.
  - ring.
  - rewrite (IH (a + x)), (IH (0 + x)). ring.
Qed.

Lemma np_sum_sumR (l : list R) : np_sum l = sumR l.
Proof.
  induction l as [|x l IH].
  - reflexivity.
  - unfold np_sum. simpl. rewrite fold_left_Rplus_acc, IH. ring.
Qed.

End SumsNp.

(** ** The distance metric *)

Section DistanceMetric.

Local Open Scope R_scope.

Variable d : nat.

(** The norm of [row - data_point] is the Euclidean distance from
    [data_point] to [row]. *)
Lemma norm_row_sub (data_point row : point d) :
  norm (row_sub row data_point) = euclid data_point row.
Proof.
  unfold norm, row_sub, euclid. f_equal.
  pattern d, data_point, row. apply Vector.rect2.
  - reflexivity.
  - intros n v1 v2 IH a b. simpl. rewrite IH. ring.
Qed.

Lemma half_nonempty (data_point : point d) (data_set : list (point d)) :
  data_set <> [] ->
  _half data_point data_set = Fin (mean_dist data_point data_set).
Proof.
  intros Hne. unfold _half, mean_dist, np_mean.
  rewrite map_map.
  destruct data_set as [|y Y]; [congruence|].
  set (l := y :: Y). cbn [map]. unfold l at 1. cbn [map].
  fold l. f_equal. rewrite np_sum_sumR.
  change (norm (row_sub y data_point)
          :: map (fun x => norm (row_sub x data_point)) Y)
    with (map (fun x => norm (row_sub x data_point)) l).
  rewrite length_map. f_equal. f_equal.
  apply map_ext. intros row. apply norm_row_sub.
Qed.

Lemma half_empty (data_point : point d) : _half data_point [] = NaN.
Proof. reflexivity. Qed.

(** The loop of [apply_to_chunk] adds up one [_half] per point. *)
Lemma apply_to_chunk_sum (chunk other_set : list (point d)) :
  apply_to_chunk chunk other_set
  = py_sum_np (map (fun x => _half x other_set) chunk).
Proof.
  unfold apply_to_chunk, py_sum_np.
  generalize (@Fin R 0).
  induction chunk as [|x chunk IH]; intros a; simpl.
  - reflexivity.
  - apply IH.
Qed.

Lemma apply_to_chunk_nil (other_set : list (point d)) :
  apply_to_chunk [] other_set = Fin 0.
Proof. reflexivity. Qed.

Lemma apply_to_chunk_app (c1 c2 other_set : list (point d)) :
  apply_to_chunk (c1 ++ c2) other_set
  = np_add (apply_to_chunk c1 other_set) (apply_to_chunk c2 other_set).
Proof.
  rewrite !apply_to_chunk_sum, map_app. apply py_sum_np_app.
Qed.

Lemma sum_over_chunks (chunks : list (list (point d)))
      (other_set : list (point d)) :
  py_sum_np (map (fun chunk => apply_to_chunk chunk other_set) chunks)
  = apply_to_chunk (concat chunks) other_set.
Proof.
  induction chunks as [|c chunks IH]; simpl.
  - reflexivity.
  - rewrite py_sum_np_cons, IH, apply_to_chunk_app. reflexivity.
Qed.

(** Any positive number of sections gives the sum over the whole set. *)
Lemma split_set_and_apply_whole (n : nat) (set1 set2 : list (point d)) :
  split_set_and_apply_n (S n) set1 set2 = apply_to_chunk set1 set2.
Proof.
  unfold split_set_and_apply_n.
  rewrite sum_over_chunks, concat_array_split. reflexivity.
Qed.

Lemma apply_to_chunk_cross (set1 set2 : list (point d)) :
  set2 <> [] ->
  apply_to_chunk set1 set2 = Fin (cross set1 set2).
Proof.
  intros Hne. rewrite apply_to_chunk_sum. unfold cross.
  rewrite <- py_sum_np_finite, map_map. f_equal.
  apply map_ext. intros x. apply half_nonempty. exact Hne.
Qed.

Lemma apply_to_chunk_nan (set1 : list (point d)) :
  set1 <> [] -> apply_to_chunk set1 [] = NaN.
Proof.
  intros Hne. rewrite apply_to_chunk_sum.
  destruct set1 as [|x set1]; [congruence|].
  cbn [map]. rewrite py_sum_np_cons, half_empty. reflexivity.
Qed.

End DistanceMetric.

Section DistanceClaims.

Local Open Scope R_scope.

Variable d : nat.

Lemma set2set_nonempty (set1 set2 : list (point d)) :
  set1 <> [] -> set2 <> [] ->
  set2set set1 set2 = Ok (Fin (distance_ref set1 set2)).
Proof.
  intros H1 H2. unfold set2set, split_set_and_apply.
  rewrite !split_set_and_apply_whole.
  rewrite (apply_to_chunk_cross set1 H2), (apply_to_chunk_cross set2 H1).
  unfold distance_ref.
  destruct (length set1 + length set2)%nat as [|n] eqn:E.
  - destruct set1; [congruence | discriminate E].
  - reflexivity.
Qed.

(** C1.  For non-empty point sets [S1] (real) and [S2] (generated),
    [distance()] returns [(cross(S1,S2) + cross(S2,S1)) / (n1 + n2)],
    where [cross(X,Y)] sums, over every [x] in [X], the arithmetic mean of
    the Euclidean distances from [x] to every point of [Y]. *)
Theorem distance_formula (self : KPIs d) :
  call (__rd self) true <> [] ->
  call (__gd self) true <> [] ->
  distance self
  = Ok (Fin (distance_ref (call (__rd self) true) (call (__gd self) true))).
Proof.
  intros H1 H2. unfold distance. apply set2set_nonempty; assumption.
Qed.

(** C6.  The chunked reduction does not depend on the number of chunks:
    with 16 chunks, as the engine does it, or with any other positive
    number, it yields what a single chunk yields. *)
Theorem chunking_invariance :
  (forall set1 set2 : list (point d),
      split_set_and_apply set1 set2 = split_set_and_apply_n 1 set1 set2) /\
  (forall (n : nat) (set1 set2 : list (point d)),
      split_set_and_apply_n (S n) set1 set2
      = split_set_and_apply_n 1 set1 set2).
Proof.
  split; intros; unfold split_set_and_apply;
    rewrite !split_set_and_apply_whole; reflexivity.
Qed.

Lemma set2set_comm (A B : list (point d)) : set2set A B = set2set B A.
Proof.
  unfold set2set.
  rewrite (Nat.add_comm (length B) (length A)).
  rewrite (np_add_comm (split_set_and_apply B A)). reflexivity.
Qed.

(** C7.  [distance()] is symmetric: swapping the two point sets, or the
    two data sources the engine is built on, gives the same value. *)
Theorem distance_symmetric :
  (forall A B : list (point d), set2set A B = set2set B A) /\
  (forall (real gen : DataSource d) (b : Binning) (s1 s2 : KPIs d),
      init real gen b = Ok s1 -> init gen real b = Ok s2 ->
      distance s1 = distance s2).
Proof.
  split; [exact set2set_comm|].
  intros real gen b s1 s2 H1 H2.
  destruct (init_fields _ _ _ H1) as [R1 [G1 _]].
  destruct (init_fields _ _ _ H2) as [R2 [G2 _]].
  unfold distance. rewrite R1, G1, R2, G2. apply set2set_comm.
Qed.

(** C10.  With fewer than 16 points the 16-way split holds one point per
    chunk while they last and then empty chunks; the partial sum of an
    empty chunk is 0; and the chunked sum against a non-empty set is
    [cross], whatever the size of the chunked set. *)
Theorem short_set_chunking (set1 set2 : list (point d)) :
  set2 <> [] ->
  ((length set1 < 16)%nat ->
   array_split set1 16
   = map (fun x => [x]) set1 ++ repeat [] (16 - length set1)) /\
  apply_to_chunk [] set2 = Fin 0 /\
  split_set_and_apply set1 set2 = Fin (cross set1 set2).
Proof.
  intros Hne. split; [|split].
  - apply array_split_short.
  - reflexivity.
  - unfold split_set_and_apply.
    rewrite split_set_and_apply_whole. apply apply_to_chunk_cross. exact Hne.
Qed.

End DistanceClaims.

(** ** Zero denominators *)

Section ZeroDenominators.

Variable d : nat.

Lemma np_div_finite_iff (a b : Q) :
  is_finite (np_div a b) = false <-> (b == 0)%Q.
Proof.
  split.
  - intros H. destruct (Qeq_dec b 0) as [E|E]; [exact E|].
    rewrite (np_div_finite a E) in H. discriminate H.
  - apply np_div_zero.
Qed.

Lemma error_raises (self : KPIs d) (e : exn) :
  error self = Raise e <->
  e = ZeroDivisionError /\ __h2f self = [] /\
  filter Qpos_b (__diff self) = [].
Proof.
  unfold error.
  destruct (filter Qpos_b (__diff self)) as [|x l];
    destruct (__h2f self) as [|g t]; split.
  all: try (intros H; discriminate H).
  all: try (intros [_ [H1 H2]]; discriminate).
  - intros H. injection H as <-. auto.
  - intros [-> _]. reflexivity.
Qed.

Lemma error_unguarded (self : KPIs d) :
  __h2f self <> [] ->
  exists v : npfloat Q,
    error self = Ok v /\
    (is_finite v = false <-> (total (__h2f self) == 0)%Q).
Proof.
  intros Hne. unfold error.
  destruct (__h2f self) as [|g t] eqn:E; [congruence|].
  destruct (filter Qpos_b (__diff self));
    (eexists; split;
     [reflexivity | rewrite <- py_sum_total; apply np_div_finite_iff]).
Qed.

Lemma quality_of_unguarded (self : KPIs d) (p : Q -> bool) :
  length (__diff self) = length (__h1f self) ->
  length (volumes (binning (__h2 self))) = length (__h1f self) ->
  exists v : npfloat Q,
    quality_of self (map p (__h1f self)) = Ok v /\
    unguarded_score (filter (fun c => p (bin_r c)) (bins self)) v.
Proof.
  intros Hd Hv. unfold quality_of, bins, flatten, unguarded_score.
  pose proof (any_mask p (__h1f self) _ _ Hd Hv) as Hany.
  pose proof (select_vols p (__h1f self) _ _ Hd Hv) as Hvols.
  destruct (any (map p (__h1f self))) eqn:Ea; simpl.
  - rewrite (mask_select_ok p (__h1f self) (__h1f self) eq_refl).
    rewrite (mask_select_ok p (__h1f self) (__diff self) Hd).
    rewrite (mask_select_ok p (__h1f self) _ Hv).
    simpl. rewrite Hvols. eexists. split; [reflexivity|]. split.
    + intros E. apply Hany in E. congruence.
    + intros _. rewrite <- ndarray_sum_total. apply np_div_finite_iff.
  - eexists. split; [reflexivity|]. split.
    + reflexivity.
    + intros Hne. exfalso. apply Hne. apply Hany. reflexivity.
Qed.

Lemma quality_unguarded (self : KPIs d) :
  length (__diff self) = length (__h1f self) ->
  length (volumes (binning (__h2 self))) = length (__h1f self) ->
  exists qa qn qe : npfloat Q,
    quality self = Ok (qa, qn, qe) /\
    unguarded_score (filter all_bins (bins self)) qa /\
    unguarded_score (filter nonempty_bins (bins self)) qn /\
    unguarded_score (filter empty_bins (bins self)) qe.
Proof.
  intros Hd Hv.
  destruct (quality_of_unguarded self (fun _ => true) Hd Hv) as [qa [Ha Sa]].
  destruct (quality_of_unguarded self Qpos_b Hd Hv) as [qn [Hn Sn]].
  destruct (quality_of_unguarded self Qzero_b Hd Hv) as [qe [He Se]].
  exists qa, qn, qe. unfold quality.
  rewrite abi_mask, Ha. unfold nebi, ebi. simpl.
  rewrite Hn. simpl. rewrite He. simpl.
  split; [reflexivity|]. split; [exact Sa|]. split; [exact Sn | exact Se].
Qed.

Lemma set2set_raises (set1 set2 : list (point d)) (e : exn) :
  set2set set1 set2 = Raise e <->
  e = ZeroDivisionError /\ set1 = [] /\ set2 = [].
Proof.
  unfold set2set.
  destruct (length set1 + length set2)%nat as [|n] eqn:E; split.
  - intros H. injection H as <-.
    destruct set1; [|discriminate E]. destruct set2; [|discriminate E].
    auto.
  - intros [-> _]. reflexivity.
  - intros H. discriminate H.
  - intros [_ [-> ->]]. discriminate E.
Qed.

Lemma set2set_one_empty (set1 set2 : list (point d)) :
  (set1 = [] /\ set2 <> []) \/ (set1 <> [] /\ set2 = []) ->
  set2set set1 set2 = Ok NaN.
Proof.
  assert (H : forall A : list (point d), A <> [] -> set2set [] A = Ok NaN).
  { intros A HA. unfold set2set, split_set_and_apply.
    rewrite !split_set_and_apply_whole, (apply_to_chunk_nan HA).
    rewrite apply_to_chunk_nil.
    destruct A as [|x A]; [congruence|]. reflexivity. }
  intros [[-> H2] | [H1 ->]].
  - apply H. exact H2.
  - rewrite set2set_comm. apply H. exact H1.
Qed.

(** C2 (amended).  No metric guards its division.  [error()] raises only
    Python's [ZeroDivisionError], and only on a histogram without bins;
    on a histogram with bins it returns a float, which is [nan] or an
    infinity exactly when [sum(h2f)] is zero.  On grids of one shape,
    [quality()] returns its triple, and the component of a partition that
    selects a bin is [nan] or an infinity exactly when the volumes of the
    partition add up to zero.  [distance()] raises only Python's
    [ZeroDivisionError], exactly when both point sets are empty; it
    returns [nan] when exactly one of them is empty, and a finite value
    when none is. *)
Theorem zero_denominators (self : KPIs d) :
  ((forall e : exn,
       error self = Raise e <->
       e = ZeroDivisionError /\ __h2f self = [] /\
       filter Qpos_b (__diff self) = []) /\
   (__h2f self <> [] ->
    exists v : npfloat Q,
      error self = Ok v /\
      (is_finite v = false <-> (total (__h2f self) == 0)%Q))) /\
  (length (__diff self) = length (__h1f self) ->
   length (volumes (binning (__h2 self))) = length (__h1f self) ->
   exists qa qn qe : npfloat Q,
     quality self = Ok (qa, qn, qe) /\
     unguarded_score (filter all_bins (bins self)) qa /\
     unguarded_score (filter nonempty_bins (bins self)) qn /\
     unguarded_score (filter empty_bins (bins self)) qe) /\
  ((forall e : exn,
       distance self = Raise e <->
       e = ZeroDivisionError /\
       call (__rd self) true = [] /\ call (__gd self) true = []) /\
   ((call (__rd self) true = [] /\ call (__gd self) true <> []) \/
    (call (__rd self) true <> [] /\ call (__gd self) true = []) ->
    distance self = Ok NaN) /\
   (call (__rd self) true <> [] -> call (__gd self) true <> [] ->
    exists x : R, distance self = Ok (Fin x))).
Proof.
  split; [split|split].
  - intros e. apply error_raises.
  - apply error_unguarded.
  - apply quality_unguarded.
  - unfold distance. split; [|split].
    + intros e. apply set2set_raises.
    + apply set2set_one_empty.
    + intros H1 H2. eexists. apply set2set_nonempty; assumption.
Qed.

End ZeroDenominators.

(** ** Queries leave the engine as it is *)

Section ReadOnly.

Variable d : nat.

(** Each body, run on an object, returns what the function of the object
    returns and leaves the object it was run on. *)
Lemma error_method_runs (self : KPIs d) :
  error_method self = (error self, self).
Proof. reflexivity. Qed.

Lemma quality_index_method_runs (index : list bool) (self : KPIs d) :
  quality_index_method index self = (quality_of self index, self).
Proof.
  unfold quality_index_method, quality_of.
  destruct (negb (any index)); reflexivity.
Qed.

Lemma quality_method_runs (self : KPIs d) :
  quality_method self = (quality self, self).
Proof.
  unfold quality_method, quality, and_then, getattr, finish, bind,
    abi, nebi, ebi.
  rewrite quality_index_method_runs.
  destruct (quality_of self (repeat true (length (__h1f self))));
    [|reflexivity].
  rewrite quality_index_method_runs.
  destruct (quality_of self (map Qpos_b (__h1f self))); [|reflexivity].
  rewrite quality_index_method_runs.
  destruct (quality_of self (map Qzero_b (__h1f self))); reflexivity.
Qed.

Lemma distance_method_runs (self : KPIs d) :
  distance_method self = (distance self, self).
Proof. reflexivity. Qed.

Lemma invoke_runs (q : query) (self : KPIs d) :
  invoke q self = (answer q self, self).
Proof.
  destruct q; unfold invoke, answer.
  - rewrite error_method_runs. reflexivity.
  - rewrite quality_method_runs. reflexivity.
  - rewrite distance_method_runs. reflexivity.
Qed.

Lemma run_frame (qs : list query) (self : KPIs d) :
  run qs self = (map (fun q => answer q self) qs, self).
Proof.
  induction qs as [|q rest IH]; cbn [run map].
  - reflexivity.
  - rewrite invoke_runs, IH. reflexivity.
Qed.

Lemma ieee_eq_self (A : Type) (eqA : A -> A -> Prop) (v : npfloat A) :
  (forall x : A, eqA x x) ->
  (ieee_eq eqA v v <-> is_nan v = false).
Proof.
  intros Hrefl. destruct v; simpl; split; intros H;
    try reflexivity; try exact I; try contradiction; try discriminate.
  apply Hrefl.
Qed.

Lemma py_equal_self (r : response) : py_equal r r <-> returns_no_nan r.
Proof.
  destruct r as [[v|e]|[[[x1 x2] x3]|e]|[v|e]]; simpl; try tauto.
  - apply ieee_eq_self. intros x. reflexivity.
  - rewrite !(ieee_eq_self Qeq) by (intros x; reflexivity). tauto.
  - apply ieee_eq_self. intros x. reflexivity.
Qed.

(** C9 (amended).  The state is what the constructor computed and no
    query changes it: the bodies of [error()], [quality()] and
    [distance()] only read the object, so after any sequence of calls the
    engine is the one the sequence started on (still the one the
    constructor built), and every call returned what it returns on that
    engine.  Two calls of one query return the same value; the two
    results compare equal under [==] exactly when the call returned and
    the value holds no [nan]. *)
Theorem queries_read_only (self : KPIs d) (qs : list query) :
  snd (run qs self) = self /\
  fst (run qs self) = map (fun q => answer q self) qs /\
  (forall q : query,
      fst (invoke q (snd (invoke q self))) = fst (invoke q self) /\
      (py_equal (fst (invoke q self)) (fst (invoke q (snd (invoke q self))))
       <-> returns_no_nan (fst (invoke q self)))) /\
  (forall (real gen : DataSource d) (b : Binning),
      init real gen b = Ok self ->
      init real gen b = Ok (snd (run qs self)) /\
      (length (__h1f self) = length (__h2f self) ->
       __diff (snd (run qs self))
       = map (fun p => (fst p - snd p)%Q)
             (combine (__h2f self) (__h1f self)))).
Proof.
  rewrite run_frame. cbn [fst snd].
  split; [reflexivity|]. split; [reflexivity|]. split.
  - intros q. repeat (rewrite invoke_runs; cbn [fst snd]).
    split; [reflexivity | apply py_equal_self].
  - intros real gen b Hinit. split; [exact Hinit|].
    apply (init_same_shape _ _ _ Hinit).
Qed.

End ReadOnly.

Section ReadOnlyExamples.

Local Open Scope Q_scope.

(** An assignment in a body would show: the object is another one. *)
Example assignment_changes_the_object :
  snd (setattr_diff [] scenario1) <> scenario1.
Proof.
  intros H. apply (f_equal (@__diff 0)) in H. discriminate H.
Qed.

(** C9, as stated, fails on its last part: on two all-zero histograms
    [error()] returns [nan] at every call, and [nan == nan] is false, so
    the results of two calls are not equal. *)
Lemma repeated_nan_results_differ :
  fst (invoke QError zero_mass) = RError (Ok NaN) /\
  fst (invoke QError (snd (invoke QError zero_mass))) = RError (Ok NaN) /\
  ~ py_equal (fst (invoke QError zero_mass))
             (fst (invoke QError (snd (invoke QError zero_mass)))).
Proof.
  split; [reflexivity|]. split; [reflexivity|].
  intros H. exact H.
Qed.

End ReadOnlyExamples.

Section DistanceExamples.

Local Open Scope R_scope.

Lemma euclid_line (a b : R) : euclid (pt a) (pt b) = Rabs (a - b).
Proof.
  unfold euclid, pt. simpl. rewrite Rplus_0_r.
  apply sqrt_Rsqr_abs.
Qed.

(** Scenario 2 of the specification: [distance()] of {0, 10} against
    itself is 5. *)
Example scenario2_distance : distance scenario2 = Ok (Fin 5).
Proof.
  unfold distance. simpl call.
  rewrite set2set_nonempty by discriminate.
  f_equal. f_equal.
  unfold distance_ref, cross, mean_dist, set_0_10. simpl.
  rewrite !euclid_line.
  assert (E00 : Rabs (0 - 0) = 0)
    by (unfold Rabs; destruct (Rcase_abs (0 - 0)); lra).
  assert (E01 : Rabs (0 - 10) = 10)
    by (unfold Rabs; destruct (Rcase_abs (0 - 10)); lra).
  assert (E10 : Rabs (10 - 0) = 10)
    by (unfold Rabs; destruct (Rcase_abs (10 - 0)); lra).
  assert (E11 : Rabs (10 - 10) = 0)
    by (unfold Rabs; destruct (Rcase_abs (10 - 10)); lra).
  rewrite E00, E01, E10, E11. field.
Qed.

Lemma distance_formula_witness :
  call (__rd scenario2) true <> [] /\
  call (__gd scenario2) true <> [] /\
  distance scenario2 = Ok (Fin (distance_ref set_0_10 set_0_10)).
Proof.
  assert (H : set_0_10 <> []) by discriminate.
  split; [exact H|]. split; [exact H|].
  exact (distance_formula scenario2 H H).
Defined.

Lemma distance_symmetric_witness :
  init src_0_10 src_0 one_bin = Ok (engine src_0_10 src_0 one_bin) /\
  init src_0 src_0_10 one_bin = Ok (engine src_0 src_0_10 one_bin) /\
  distance (engine src_0_10 src_0 one_bin)
  = distance (engine src_0 src_0_10 one_bin).
Proof.
  split; [reflexivity|]. split; [reflexivity|].
  exact (proj2 (distance_symmetric 1) src_0_10 src_0 one_bin
               (engine src_0_10 src_0 one_bin)
               (engine src_0 src_0_10 one_bin) eq_refl eq_refl).
Defined.

Lemma short_set_chunking_witness :
  set_0_10 <> [] /\
  (length set_0_10 < 16)%nat /\
  array_split set_0_10 16
  = map (fun x => [x]) set_0_10 ++ repeat [] (16 - length set_0_10) /\
  split_set_and_apply set_0_10 set_0_10 = Fin (cross set_0_10 set_0_10).
Proof.
  assert (H : set_0_10 <> []) by discriminate.
  assert (L : (length set_0_10 < 16)%nat) by (simpl; lia).
  split; [exact H|]. split; [exact L|].
  destruct (short_set_chunking set_0_10 H) as [Hs [_ Hc]].
  split; [exact (Hs L) | exact Hc].
Defined.

End DistanceExamples.

Section DegenerateExamples.

Local Open Scope Q_scope.

(** C2, as stated, fails: on a zero denominator no metric raises.  A
    generated histogram without mass, a partition without volume and an
    empty point set each yield [nan]. *)
Lemma degenerate_inputs_not_reported :
  ((total (__h2f zero_mass) == 0)%Q /\ error zero_mass = Ok NaN) /\
  ((total (map bin_vol (filter all_bins (bins zero_volume))) == 0)%Q /\
   filter all_bins (bins zero_volume) <> [] /\
   quality zero_volume = Ok (NaN, NaN, Fin 2%Q)) /\
  (call (__rd one_sided) true = [] /\ distance one_sided = Ok NaN).
Proof.
  split; [|split].
  - split; reflexivity.
  - split; [reflexivity|]. split; [discriminate | reflexivity].
  - split; [reflexivity|].
    unfold distance. apply set2set_one_empty.
    left. split; [reflexivity | discriminate].
Qed.

(** Without any point on either side the division is Python's. *)
Example no_points_distance : distance no_points = Raise ZeroDivisionError.
Proof. reflexivity. Qed.

Lemma zero_denominators_witness :
  __h2f zero_mass <> [] /\
  exists v : npfloat Q,
    error zero_mass = Ok v /\
    (is_finite v = false <-> (total (__h2f zero_mass) == 0)%Q).
Proof.
  assert (H : __h2f zero_mass <> []) by discriminate.
  split; [exact H|].
  exact (proj2 (proj1 (zero_denominators zero_mass)) H).
Defined.

Lemma queries_read_only_witness :
  init (source [3; 1] []) (source [2; 2] []) bins_5_5 = Ok scenario1 /\
  snd (run [QError; QQuality; QError] scenario1) = scenario1.
Proof.
  split; [reflexivity|].
  exact (proj1 (queries_read_only scenario1 [QError; QQuality; QError])).
Defined.

End DegenerateExamples.

(** * Further properties of the engine *)

(** ** Construction *)

Section Construction.

Variable d : nat.

(** X1.  The constructor fails only on histograms of different sizes of which
    none has exactly one bin, and then with numpy's [ValueError]; a
    one-bin histogram is broadcast against the other. *)
Theorem init_raises_iff (real gen : DataSource d) (b : Binning) (e : exn) :
  init real gen b = Raise e <->
  e = ValueError /\
  length (values (get_histogram real b))
  <> length (values (get_histogram gen b)) /\
  length (values (get_histogram real b)) <> 1%nat /\
  length (values (get_histogram gen b)) <> 1%nat.
Proof.
  unfold init, bind, np_sub, flatten.
  destruct (Nat.eqb (length (values (get_histogram gen b)))
                    (length (values (get_histogram real b)))) eqn:E.
  - apply Nat.eqb_eq in E. split; [discriminate|].
    intros [_ [H _]]. congruence.
  - apply Nat.eqb_neq in E.
    destruct (values (get_histogram gen b)) as [|x [|x' t]];
      destruct (values (get_histogram real b)) as [|y [|y' u]];
      simpl in E |- *; split;
      try discriminate; try congruence;
      try (intros [_ [_ [H1 H2]]]; congruence);
      try (intros H; injection H as <-; repeat split; congruence);
      try (intros [-> _]; reflexivity).
Qed.

End Construction.

(** ** More on the error metric *)

Section ErrorMore.

Local Open Scope Q_scope.

Variable d : nat.


Lemma over_generation_zero_iff (h1 : list Q) :
  forall h2 : list Q,
    length h1 = length h2 ->
    (over_generation h1 h2 == 0 <-> Forall2 (fun r g => g <= r) h1 h2).
Proof.
  induction h1 as [|r t1 IH]; intros [|g t2] Hlen; try discriminate Hlen.
  - split; [constructor | reflexivity].
  - injection Hlen as Hlen. specialize (IH t2 Hlen).
    pose proof (over_generation_nonneg t1 t2) as Hn.
    cbn [over_generation].
    destruct (Qpos_b (g - r)) eqn:E.
    + apply Qpos_b_true in E. split.
      * intros H. exfalso. lra.
      * intros H. inversion H; subst. exfalso. lra.
    + apply Qpos_b_false in E. split.
      * intros H. constructor; [lra | apply IH; lra].
      * intros H. inversion H as [|? ? ? ? _ Ht]; subst.
        apply IH in Ht. lra.
Qed.

Lemma error_value (real gen : DataSource d) (b : Binning) (self : KPIs d) :
  init real gen b = Ok self ->
  length (__h1f self) = length (__h2f self) ->
  ~ total (__h2f self) == 0 ->
  exists q : Q,
    error self = Ok (Fin q) /\
    q * total (__h2f self) == over_generation (__h1f self) (__h2f self).
Proof.
  intros Hinit Hlen Hm.
  eexists. split; [apply error_nonzero_mass; exact Hm|].
  rewrite (init_same_shape _ _ _ Hinit Hlen).
  rewrite sum_positive_diff, py_sum_total. field. exact Hm.
Qed.


(** X3.  With generated mass, the error is zero exactly when no bin holds more
    generated than real mass. *)
Theorem error_zero_iff
  (real gen : DataSource d) (b : Binning) (self : KPIs d) :
  init real gen b = Ok self ->
  length (__h1f self) = length (__h2f self) ->
  ~ total (__h2f self) == 0 ->
  exists q : Q,
    error self = Ok (Fin q) /\
    (q == 0 <-> Forall2 (fun r g => g <= r) (__h1f self) (__h2f self)).
Proof.
  intros Hinit Hlen Hm.
  destruct (error_value _ _ _ Hinit Hlen Hm) as [q [Hq Hv]].
  exists q. split; [exact Hq|].
  rewrite <- (over_generation_zero_iff _ _ Hlen), <- Hv. split.
  - intros H. rewrite H. ring.
  - intros H. apply Qmult_integral in H. destruct H as [H|H];
      [exact H | contradiction].
Qed.

End ErrorMore.

Section ErrorMoreExamples.

Local Open Scope Q_scope.


Lemma error_zero_iff_witness :
  init (source [3; 1] []) (source [3; 1] []) bins_5_5 = Ok same_3_1 /\
  length (__h1f same_3_1) = length (__h2f same_3_1) /\
  ~ total (__h2f same_3_1) == 0 /\
  exists q : Q,
    error same_3_1 = Ok (Fin q) /\
    (q == 0 <->
     Forall2 (fun r g => g <= r) (__h1f same_3_1) (__h2f same_3_1)).
Proof.
  assert (Hm : ~ total (__h2f same_3_1) == 0)
    by (intros H; vm_compute in H; discriminate H).
  split; [reflexivity|]. split; [reflexivity|]. split; [exact Hm|].
  exact (error_zero_iff
           (source [3; 1] []) (source [3; 1] []) bins_5_5
           (self := same_3_1) eq_refl eq_refl Hm).
Defined.

End ErrorMoreExamples.

(** ** More on the quality metric *)

Section QualityMore.

Local Open Scope Q_scope.

Variable d : nat.

Lemma Qabs_zero_iff (x : Q) : Qabs x == 0 <-> x == 0.
Proof.
  destruct (Qlt_le_dec x 0) as [H|H].
  - pose proof (Qabs_neg x (Qlt_le_weak _ _ H)) as E. split; intros; lra.
  - pose proof (Qabs_pos x H) as E. split; intros; lra.
Qed.

(** X4.  The per-bin score falls as the difference grows in magnitude, and
    does not depend on the sign of the difference. *)
Theorem get_quality_monotone (r d1 d2 : Q) :
  (Qabs d1 <= Qabs d2 -> get_quality r d2 <= get_quality r d1) /\
  get_quality r (- d1) == get_quality r d1.
Proof.
  assert (Hmono : forall a c : Q,
             Qabs a <= Qabs c -> get_quality r c <= get_quality r a).
  { intros a c Hle.
    pose proof (get_quality_range r a) as [Ha0 Ha1].
    pose proof (get_quality_range r c) as [Hc0 Hc1].
    pose proof (Qabs_zero_iff a) as Za. pose proof (Qabs_zero_iff c) as Zc.
    pose proof (Qabs_nonneg a) as Na.
    revert Ha0 Ha1 Hc0 Hc1. unfold get_quality.
    destruct (Qeq_bool r 0) eqn:Er;
      [apply Qeq_bool_iff in Er | apply Qeq_bool_neq in Er].
    - destruct (Qeq_bool a 0) eqn:Ea;
        [apply Qeq_bool_iff in Ea | apply Qeq_bool_neq in Ea];
        (destruct (Qeq_bool c 0) eqn:Ec;
         [apply Qeq_bool_iff in Ec | apply Qeq_bool_neq in Ec]);
        simpl; intros; lra.
    - rewrite !andb_false_l, !orb_false_l.
      destruct (Qle_bool (Qabs c) r) eqn:Ec; simpl; [|intros; lra].
      apply Qle_bool_iff in Ec.
      assert (Ea : Qle_bool (Qabs a) r = true)
        by (apply Qle_bool_iff; lra).
      rewrite Ea. simpl. intros _ _ _ _.
      assert (Hr : 0 < r) by lra.
      assert (Hq : Qabs a / r <= Qabs c / r).
      { apply Qmult_le_compat_r; [exact Hle|].
        apply Qlt_le_weak, Qinv_lt_0_compat. exact Hr. }
      revert Hq. generalize (Qabs a / r) (Qabs c / r). intros; lra. }
  split; [apply Hmono|].
  pose proof (Qabs_opp d1) as Ho.
  apply Qle_antisym; apply Hmono; lra.
Qed.

Lemma get_quality_exact (r delta : Q) :
  0 <= r -> delta == 0 -> get_quality r delta == 1.
Proof.
  intros Hr Hd. unfold get_quality.
  apply Qeq_bool_iff in Hd. rewrite Hd. apply Qeq_bool_iff in Hd.
  destruct (Qeq_bool r 0) eqn:Er; simpl; [reflexivity|].
  apply Qeq_bool_neq in Er.
  assert (Ha : Qabs delta == 0) by (apply Qabs_zero_iff; exact Hd).
  assert (El : Qle_bool (Qabs delta) r = true)
    by (apply Qle_bool_iff; lra).
  rewrite El. simpl. rewrite Ha. field. exact Er.
Qed.

Lemma mask_select_mismatch (A : Type) (p : Q -> bool) (rs : list Q)
      (a : list A) :
  length a <> length rs ->
  mask_select (map p rs) a = Raise IndexError.
Proof.
  intros H. unfold mask_select. rewrite length_map.
  destruct (Nat.eqb (length rs) (length a)) eqn:E; [|reflexivity].
  apply Nat.eqb_eq in E. congruence.
Qed.

Lemma quality_of_mismatch (self : KPIs d) (p : Q -> bool) :
  any (map p (__h1f self)) = true ->
  length (__diff self) <> length (__h1f self) \/
  length (volumes (binning (__h2 self))) <> length (__h1f self) ->
  quality_of self (map p (__h1f self)) = Raise IndexError.
Proof.
  intros Hany Hbad. unfold quality_of, flatten. rewrite Hany. simpl.
  rewrite (mask_select_ok p (__h1f self) (__h1f self) eq_refl). simpl.
  destruct (Nat.eq_dec (length (__diff self)) (length (__h1f self)))
    as [Hd|Hd].
  - rewrite (mask_select_ok p (__h1f self) (__diff self) Hd). simpl.
    destruct Hbad as [C|Hv]; [contradiction|].
    rewrite (mask_select_mismatch p (__h1f self) _ Hv). reflexivity.
  - rewrite (mask_select_mismatch p (__h1f self) _ Hd). reflexivity.
Qed.

(** X5.  [quality()] raises only numpy's [IndexError], and exactly when the
    histogram has a bin and the difference grid or the volumes grid is
    not of the histogram's size. *)
Theorem quality_raises_iff (self : KPIs d) (e : exn) :
  quality self = Raise e <->
  e = IndexError /\ __h1f self <> [] /\
  (length (__diff self) <> length (__h1f self) \/
   length (volumes (binning (__h2 self))) <> length (__h1f self)).
Proof.
  destruct (Nat.eq_dec (length (__diff self)) (length (__h1f self)))
    as [Hd|Hd];
    [destruct (Nat.eq_dec (length (volumes (binning (__h2 self))))
                          (length (__h1f self))) as [Hv|Hv]|].
  1: { destruct (quality_unguarded self Hd Hv) as [qa [qn [qe [H _]]]].
       rewrite H. split; [discriminate|].
       intros [_ [_ [C|C]]]; contradiction. }
  all: assert (Hbad : length (__diff self) <> length (__h1f self) \/
                      length (volumes (binning (__h2 self)))
                      <> length (__h1f self)) by tauto.
  all: assert (Hcase : __h1f self = [] \/ __h1f self <> [])
    by (destruct (__h1f self); [left; reflexivity | right; discriminate]).
  all: destruct Hcase as [E|E].
  all: try (unfold quality, quality_of, abi, nebi, ebi; rewrite E; simpl;
            split; [discriminate | intros [_ [C _]]; congruence]).
  all: assert (Hany : any (map (fun _ => true) (__h1f self)) = true)
    by (destruct (__h1f self); [congruence | reflexivity]).
  all: unfold quality; rewrite abi_mask, (quality_of_mismatch _ _ Hany Hbad).
  all: simpl; split;
    [ intros H; injection H as <-; split; [reflexivity|]; split; assumption
    | intros [-> _]; reflexivity ].
Qed.

End QualityMore.

Section QualityAggregates.

Local Open Scope Q_scope.

Variable d : nat.

Lemma quality_triple (self : KPIs d) :
  length (__diff self) = length (__h1f self) ->
  length (volumes (binning (__h2 self))) = length (__h1f self) ->
  Forall (fun v => 0 < v) (volumes (binning (__h2 self))) ->
  exists qa qn qe : npfloat Q,
    quality self = Ok (qa, qn, qe) /\
    partition_score (filter all_bins (bins self)) qa /\
    partition_score (filter nonempty_bins (bins self)) qn /\
    partition_score (filter empty_bins (bins self)) qe.
Proof.
  intros Hd Hv Hpos.
  destruct (quality_of_partition self (fun _ => true) Hd Hv Hpos)
    as [qa [Ha Sa]].
  destruct (quality_of_partition self Qpos_b Hd Hv Hpos) as [qn [Hn Sn]].
  destruct (quality_of_partition self Qzero_b Hd Hv Hpos) as [qe [He Se]].
  exists qa, qn, qe. unfold quality.
  rewrite abi_mask, Ha. unfold nebi, ebi. simpl.
  rewrite Hn. simpl. rewrite He. simpl.
  split; [reflexivity|]. split; [exact Sa|]. split; [exact Sn | exact Se].
Qed.

Lemma init_diff_length (real gen : DataSource d) (b : Binning)
      (self : KPIs d) :
  init real gen b = Ok self ->
  length (__h1f self) = length (__h2f self) ->
  length (__diff self) = length (__h1f self).
Proof.
  intros Hinit Hlen. rewrite (init_same_shape _ _ _ Hinit Hlen).
  rewrite length_map, length_combine. lia.
Qed.

Lemma bins_vols_positive (self : KPIs d) (sel : bin -> bool) :
  Forall (fun v => 0 < v) (volumes (binning (__h2 self))) ->
  Forall (fun c => 0 < bin_vol c) (filter sel (bins self)).
Proof.
  intros Hpos. apply Forall_forall. intros c Hc.
  apply filter_In in Hc. destruct Hc as [Hc _]. revert c Hc.
  apply Forall_forall. apply zip3_vols_positive. exact Hpos.
Qed.

(** A component times the volume of its partition is the weighted sum of
    the scores of the partition; for a partition without bins both are
    zero. *)
Lemma score_times_volume (part : list bin) (v : npfloat Q) :
  Forall (fun c => 0 < bin_vol c) part ->
  partition_score part v ->
  exists q : Q,
    v = Fin q /\ q * volume_of part == weighted_scores part.
Proof.
  intros Hpos [q [-> [_ [He Hn]]]]. exists q. split; [reflexivity|].
  destruct part as [|c part].
  - unfold volume_of, weighted_scores. simpl. ring.
  - assert (Hne : c :: part <> []) by discriminate.
    destruct (Hn Hne) as [Hq _].
    pose proof (total_vols_positive Hpos Hne) as Hv.
    rewrite Hq. unfold weighted_mean, volume_of, weighted_scores.
    field. lra.
Qed.





Lemma identical_scores (gs : list Q) :
  forall rs vs : list Q,
    Forall2 Qeq gs rs ->
    Forall (fun r => 0 <= r) rs ->
    Forall (fun c => get_quality (bin_r c) (bin_delta c) == 1)
           (zip3 rs (map (fun p => fst p - snd p) (combine gs rs)) vs).
Proof.
  unfold zip3.
  induction gs as [|g gs IH]; intros rs vs Hsame Hr;
    inversion Hsame as [|? r ? rs' Hgr Hrest]; subst; simpl.
  - apply Forall_nil.
  - destruct vs as [|v vs]; [apply Forall_nil|].
    inversion Hr as [|? ? Hr0 Hrs]; subst.
    apply Forall_cons.
    + unfold bin_r, bin_delta. simpl.
      apply get_quality_exact; [exact Hr0 | lra].
    + apply IH; assumption.
Qed.

Lemma unit_scores_sum (part : list bin) :
  Forall (fun c => get_quality (bin_r c) (bin_delta c) == 1) part ->
  weighted_scores part == volume_of part.
Proof.
  unfold weighted_scores, volume_of.
  induction 1 as [|c part Hc _ IH]; simpl.
  - reflexivity.
  - rewrite Hc, IH. ring.
Qed.

(** X7.  In exact arithmetic, when the generated histogram equals the real
    one, bin by bin, every partition that selects a bin scores 1.  (In
    [float64] the score is 1 up to the rounding of its two sums.) *)
Theorem quality_identical_histograms
  (real gen : DataSource d) (b : Binning) (self : KPIs d) :
  init real gen b = Ok self ->
  Forall2 Qeq (__h2f self) (__h1f self) ->
  length (volumes (binning (__h2 self))) = length (__h1f self) ->
  Forall (fun v => 0 < v) (volumes (binning (__h2 self))) ->
  Forall (fun r => 0 <= r) (__h1f self) ->
  exists qa qn qe : Q,
    quality self = Ok (Fin qa, Fin qn, Fin qe) /\
    (filter all_bins (bins self) <> [] -> qa == 1) /\
    (filter nonempty_bins (bins self) <> [] -> qn == 1) /\
    (filter empty_bins (bins self) <> [] -> qe == 1).
Proof.
  intros Hinit Hsame Hv Hpos Hr.
  assert (Hlen : length (__h1f self) = length (__h2f self))
    by (symmetry; eapply Forall2_length; exact Hsame).
  pose proof (init_diff_length _ _ _ Hinit Hlen) as Hd.
  assert (Hone : forall sel : bin -> bool,
             Forall (fun c => get_quality (bin_r c) (bin_delta c) == 1)
                    (filter sel (bins self))).
  { intros sel. apply Forall_forall. intros c Hc.
    apply filter_In in Hc. destruct Hc as [Hc _]. revert c Hc.
    apply Forall_forall. unfold bins.
    rewrite (init_same_shape _ _ _ Hinit Hlen).
    apply identical_scores; assumption. }
  assert (Hpart : forall (sel : bin -> bool) (v : npfloat Q),
             partition_score (filter sel (bins self)) v ->
             exists q : Q,
               v = Fin q /\ (filter sel (bins self) <> [] -> q == 1)).
  { intros sel v S.
    pose proof (bins_vols_positive self sel Hpos) as Hp.
    destruct (score_times_volume Hp S) as [q [-> Eq]].
    exists q. split; [reflexivity|]. intros Hne.
    pose proof (total_vols_positive Hp Hne) as Hvol.
    rewrite (unit_scores_sum (Hone sel)) in Eq.
    fold (volume_of (filter sel (bins self))) in Hvol.
    assert (Hnz : ~ volume_of (filter sel (bins self)) == 0) by lra.
    apply (Qmult_inj_r _ _ _ Hnz). rewrite Eq. ring. }
  destruct (quality_triple self Hd Hv Hpos)
    as [va [vn [ve [Hq [Sa [Sn Se]]]]]].
  destruct (Hpart _ _ Sa) as [qa [-> Ha]].
  destruct (Hpart _ _ Sn) as [qn [-> Hn]].
  destruct (Hpart _ _ Se) as [qe [-> He]].
  exists qa, qn, qe. auto.
Qed.

End QualityAggregates.

Section QualityMoreExamples.

Local Open Scope Q_scope.

Ltac all_pos := repeat (apply Forall_cons; [lra|]); apply Forall_nil.


Lemma quality_identical_histograms_witness :
  init (source [3; 1] []) (source [3; 1] []) bins_5_5 = Ok same_3_1 /\
  Forall2 Qeq (__h2f same_3_1) (__h1f same_3_1) /\
  length (volumes (binning (__h2 same_3_1))) = length (__h1f same_3_1) /\
  Forall (fun v => 0 < v) (volumes (binning (__h2 same_3_1))) /\
  Forall (fun r => 0 <= r) (__h1f same_3_1) /\
  exists qa qn qe : Q,
    quality same_3_1 = Ok (Fin qa, Fin qn, Fin qe) /\
    (filter all_bins (bins same_3_1) <> [] -> qa == 1) /\
    (filter nonempty_bins (bins same_3_1) <> [] -> qn == 1) /\
    (filter empty_bins (bins same_3_1) <> [] -> qe == 1).
Proof.
  assert (Hsame : Forall2 Qeq (__h2f same_3_1) (__h1f same_3_1))
    by (repeat constructor).
  assert (Hpos : Forall (fun v => 0 < v)
                        (volumes (binning (__h2 same_3_1))))
    by (simpl; all_pos).
  assert (Hr : Forall (fun r => 0 <= r) (__h1f same_3_1))
    by (simpl; all_pos).
  split; [reflexivity|]. split; [exact Hsame|]. split; [reflexivity|].
  split; [exact Hpos|]. split; [exact Hr|].
  exact (quality_identical_histograms
           (source [3; 1] []) (source [3; 1] []) bins_5_5
           (self := same_3_1) eq_refl Hsame eq_refl Hpos Hr).
Defined.

End QualityMoreExamples.

(** ** More on the distance metric *)

Section DistanceMore.

Local Open Scope R_scope.

Variable d : nat.

Lemma sumR_nonneg (l : list R) : Forall (fun x => 0 <= x) l -> 0 <= sumR l.
Proof.
  induction 1 as [|x l Hx _ IH]; simpl; lra.
Qed.

Lemma sumR_zero (l : list R) :
  Forall (fun x => 0 <= x) l -> sumR l = 0 -> Forall (fun x => x = 0) l.
Proof.
  induction 1 as [|x l Hx Hl IH]; simpl; intros H.
  - apply Forall_nil.
  - pose proof (sumR_nonneg Hl) as Hn.
    apply Forall_cons; [lra | apply IH; lra].
Qed.

Lemma sumR_all_zero (l : list R) : Forall (fun x => x = 0) l -> sumR l = 0.
Proof.
  induction 1 as [|x l Hx _ IH]; simpl; lra.
Qed.

Lemma sum_squares (x y : point d) :
  0 <= Vector.fold_right Rplus
         (Vector.map2 (fun a b => (a - b) * (a - b)) x y) 0
  /\ (Vector.fold_right Rplus
        (Vector.map2 (fun a b => (a - b) * (a - b)) x y) 0 = 0
      <-> x = y).
Proof.
  pattern d, x, y. apply Vector.rect2.
  - simpl. split; [lra | split; reflexivity].
  - intros n v1 v2 [IH0 IH] a b. simpl.
    pose proof (Rle_0_sqr (a - b)) as Hs. unfold Rsqr in Hs.
    split; [lra|]. split.
    + intros H.
      assert (Ha : (a - b) * (a - b) = 0) by lra.
      assert (Hv : v1 = v2) by (apply IH; lra).
      apply Rmult_integral in Ha.
      assert (Hab : a = b) by (destruct Ha; lra).
      rewrite Hab, Hv. reflexivity.
    + intros H. destruct (Vector.cons_inj H) as [Hab Hv].
      apply IH in Hv. rewrite Hv, Hab. ring.
Qed.

Lemma euclid_nonneg (x y : point d) : 0 <= euclid x y.
Proof. apply sqrt_pos. Qed.

Lemma euclid_zero_iff (x y : point d) : euclid x y = 0 <-> x = y.
Proof.
  unfold euclid. destruct (sum_squares x y) as [H0 H]. split.
  - intros E. apply H. apply sqrt_eq_0; assumption.
  - intros E. apply H in E. rewrite E. apply sqrt_0.
Qed.

Lemma INR_length_pos (A : Type) (l : list A) : l <> [] -> 0 < INR (length l).
Proof.
  intros H. destruct l as [|a l]; [congruence|].
  apply lt_0_INR. simpl. lia.
Qed.

Lemma mean_dist_nonneg (x : point d) (Y : list (point d)) :
  Y <> [] -> 0 <= mean_dist x Y.
Proof.
  intros HY. unfold mean_dist, Rdiv.
  apply Rmult_le_pos.
  - apply sumR_nonneg. apply Forall_map. apply Forall_forall.
    intros y _. apply euclid_nonneg.
  - left. apply Rinv_0_lt_compat. apply INR_length_pos. exact HY.
Qed.

Lemma mean_dist_zero_iff (x : point d) (Y : list (point d)) :
  Y <> [] ->
  (mean_dist x Y = 0 <-> forall y : point d, In y Y -> x = y).
Proof.
  intros HY. pose proof (INR_length_pos HY) as Hn.
  assert (Hnn : Forall (fun v => 0 <= v) (map (euclid x) Y)).
  { apply Forall_map. apply Forall_forall. intros y _. apply euclid_nonneg. }
  unfold mean_dist. split.
  - intros H y Hy.
    assert (Hs : sumR (map (euclid x) Y) = 0).
    { unfold Rdiv in H. apply Rmult_integral in H. destruct H as [H|H];
        [exact H|].
      exfalso. apply (Rinv_neq_0_compat (INR (length Y))); [lra | exact H]. }
    pose proof (sumR_zero Hnn Hs) as Hz.
    rewrite Forall_map, Forall_forall in Hz.
    apply euclid_zero_iff. apply Hz. exact Hy.
  - intros H.
    assert (Hs : sumR (map (euclid x) Y) = 0).
    { apply sumR_all_zero. apply Forall_map. apply Forall_forall.
      intros y Hy. apply euclid_zero_iff. apply H. exact Hy. }
    rewrite Hs. unfold Rdiv. ring.
Qed.

Lemma cross_nonneg (X Y : list (point d)) : Y <> [] -> 0 <= cross X Y.
Proof.
  intros HY. unfold cross. apply sumR_nonneg. apply Forall_map.
  apply Forall_forall. intros x _. apply mean_dist_nonneg. exact HY.
Qed.

Lemma cross_zero_iff (X Y : list (point d)) :
  Y <> [] ->
  (cross X Y = 0 <->
   forall x y : point d, In x X -> In y Y -> x = y).
Proof.
  intros HY.
  assert (Hnn : Forall (fun v => 0 <= v) (map (fun x => mean_dist x Y) X)).
  { apply Forall_map. apply Forall_forall. intros x _.
    apply mean_dist_nonneg. exact HY. }
  unfold cross. split.
  - intros H x y Hx Hy.
    pose proof (sumR_zero Hnn H) as Hz.
    rewrite Forall_map, Forall_forall in Hz.
    apply (proj1 (mean_dist_zero_iff x HY) (Hz x Hx)). exact Hy.
  - intros H. apply sumR_all_zero. apply Forall_map. apply Forall_forall.
    intros x Hx. apply mean_dist_zero_iff; [exact HY|].
    intros y Hy. apply H; assumption.
Qed.

Lemma distance_ref_nonneg (S1 S2 : list (point d)) :
  S1 <> [] -> S2 <> [] -> 0 <= distance_ref S1 S2.
Proof.
  intros H1 H2. unfold distance_ref, Rdiv.
  pose proof (cross_nonneg S1 H2). pose proof (cross_nonneg S2 H1).
  apply Rmult_le_pos; [lra|].
  left. apply Rinv_0_lt_compat. rewrite <- length_app.
  apply INR_length_pos. destruct S1; [congruence | discriminate].
Qed.

(** X8.  [distance()] of two non-empty point sets is a finite number that is
    not negative. *)
Theorem distance_nonnegative (self : KPIs d) :
  call (__rd self) true <> [] ->
  call (__gd self) true <> [] ->
  exists x : R, distance self = Ok (Fin x) /\ 0 <= x.
Proof.
  intros H1 H2. eexists. split.
  - unfold distance. apply set2set_nonempty; assumption.
  - apply distance_ref_nonneg; assumption.
Qed.

(** X9.  [distance()] of two non-empty point sets is zero exactly when all
    points of both sets are one and the same point. *)
Theorem distance_zero_iff (self : KPIs d) :
  call (__rd self) true <> [] ->
  call (__gd self) true <> [] ->
  (distance self = Ok (Fin 0) <->
   exists p : point d,
     Forall (fun x => x = p) (call (__rd self) true) /\
     Forall (fun y => y = p) (call (__gd self) true)).
Proof.
  intros H1 H2. unfold distance.
  rewrite (set2set_nonempty H1 H2).
  set (S1 := call (__rd self) true) in *.
  set (S2 := call (__gd self) true) in *.
  pose proof (cross_nonneg S1 H2) as C1.
  pose proof (cross_nonneg S2 H1) as C2.
  assert (Hn : 0 < INR (length S1 + length S2)).
  { rewrite <- length_app. apply INR_length_pos.
    destruct S1; [congruence | discriminate]. }
  split.
  - intros H. injection H as H. unfold distance_ref, Rdiv in H.
    apply Rmult_integral in H. destruct H as [H|H].
    + assert (E1 : cross S1 S2 = 0) by lra.
      pose proof (proj1 (cross_zero_iff S1 H2) E1) as Hall.
      destruct S1 as [|x0 t1] eqn:ES1; [congruence|].
      destruct S2 as [|y0 t2] eqn:ES2; [congruence|].
      exists x0. split; apply Forall_forall.
      * intros x Hx. rewrite (Hall x y0 Hx (or_introl eq_refl)).
        symmetry. apply Hall; left; reflexivity.
      * intros y Hy. symmetry. apply Hall; [left; reflexivity | exact Hy].
    + exfalso.
      apply (Rinv_neq_0_compat (INR (length S1 + length S2))); [lra|exact H].
  - intros [p [Hp1 Hp2]]. rewrite Forall_forall in Hp1, Hp2.
    assert (E1 : cross S1 S2 = 0).
    { apply cross_zero_iff; [exact H2|]. intros x y Hx Hy.
      rewrite (Hp1 x Hx), (Hp2 y Hy). reflexivity. }
    assert (E2 : cross S2 S1 = 0).
    { apply cross_zero_iff; [exact H1|]. intros y x Hy Hx.
      rewrite (Hp1 x Hx), (Hp2 y Hy). reflexivity. }
    unfold distance_ref. rewrite E1, E2. f_equal. f_equal.
    unfold Rdiv. ring.
Qed.

Lemma sumR_permutation (l l' : list R) :
  Permutation l l' -> sumR l = sumR l'.
Proof.
  induction 1; simpl; lra.
Qed.

Lemma cross_permutation (X X' Y Y' : list (point d)) :
  Permutation X X' -> Permutation Y Y' -> cross X Y = cross X' Y'.
Proof.
  intros HX HY. unfold cross.
  rewrite (sumR_permutation
             (Permutation_map (fun x => mean_dist x Y) HX)).
  f_equal. apply map_ext. intros x. unfold mean_dist.
  rewrite (sumR_permutation (Permutation_map (euclid x) HY)).
  rewrite (Permutation_length HY). reflexivity.
Qed.

Lemma permutation_nonempty (A : Type) (l l' : list A) :
  Permutation l l' -> l <> [] -> l' <> [].
Proof.
  intros H Hne E. subst l'. apply Permutation_sym in H.
  apply Permutation_nil in H. contradiction.
Qed.

(** X10.  The distance does not depend on the order of the points within the
    two sets, although the chunks are cut in that order. *)
Theorem distance_order_independent (S1 S1' S2 S2' : list (point d)) :
  Permutation S1 S1' -> Permutation S2 S2' ->
  set2set S1 S2 = set2set S1' S2'.
Proof.
  intros P1 P2.
  destruct S1 as [|x1 t1]; destruct S2 as [|y1 t2].
  - apply Permutation_nil in P1. apply Permutation_nil in P2.
    subst. reflexivity.
  - apply Permutation_nil in P1. subst S1'.
    assert (N2 : S2' <> []) by (apply (permutation_nonempty P2); discriminate).
    rewrite !set2set_one_empty; auto. left. split; [reflexivity|discriminate].
  - apply Permutation_nil in P2. subst S2'.
    assert (N1 : S1' <> []) by (apply (permutation_nonempty P1); discriminate).
    rewrite !set2set_one_empty; auto. right. split; [discriminate|reflexivity].
  - assert (N1 : S1' <> []) by (apply (permutation_nonempty P1); discriminate).
    assert (N2 : S2' <> []) by (apply (permutation_nonempty P2); discriminate).
    rewrite !set2set_nonempty by (assumption || discriminate).
    unfold distance_ref.
    rewrite (cross_permutation P1 P2), (cross_permutation P2 P1).
    rewrite (Permutation_length P1), (Permutation_length P2). reflexivity.
Qed.

End DistanceMore.

(** ** The chunks handed to the workers *)

Section Chunks.

Variable A : Type.

Lemma length_slices (sizes : list nat) :
  forall l : list A,
    (list_sum sizes <= length l)%nat ->
    map (@length A) (slices l sizes) = sizes.
Proof.
  induction sizes as [|n rest IH]; intros l H; simpl in *.
  - reflexivity.
  - rewrite length_firstn, IH.
    + f_equal. lia.
    + rewrite length_skipn. lia.
Qed.

(** X11.  The sixteen chunks of a set hold every point once, in order, and
    their sizes are the sixteenth of the set's size, rounded down, or one
    more. *)
Theorem chunks_balanced (set1 : list A) :
  length (array_split set1 16) = 16%nat /\
  concat (array_split set1 16) = set1 /\
  Forall (fun chunk =>
            length chunk = Nat.div (length set1) 16 \/
            length chunk = S (Nat.div (length set1) 16))
         (array_split set1 16).
Proof.
  split; [apply length_array_split|].
  split; [apply concat_array_split|].
  rewrite array_split_slices.
  rewrite <- (Forall_map (@length A)
                (fun n => n = Nat.div (length set1) 16
                          \/ n = S (Nat.div (length set1) 16))).
  rewrite length_slices
    by (rewrite list_sum_section_sizes; apply Nat.le_refl).
  unfold section_sizes. apply Forall_app. split; apply Forall_forall;
    intros n Hn; apply repeat_spec in Hn; [right | left]; exact Hn.
Qed.

End Chunks.

Section DistanceMoreExamples.

Local Open Scope R_scope.

Lemma distance_nonnegative_witness :
  call (__rd scenario2) true <> [] /\
  call (__gd scenario2) true <> [] /\
  exists x : R, distance scenario2 = Ok (Fin x) /\ 0 <= x.
Proof.
  assert (H : set_0_10 <> []) by discriminate.
  split; [exact H|]. split; [exact H|].
  exact (distance_nonnegative scenario2 H H).
Defined.

Lemma distance_zero_iff_witness :
  call (__rd scenario2) true <> [] /\
  call (__gd scenario2) true <> [] /\
  (distance scenario2 = Ok (Fin 0) <->
   exists p : point 1,
     Forall (fun x => x = p) (call (__rd scenario2) true) /\
     Forall (fun y => y = p) (call (__gd scenario2) true)).
Proof.
  assert (H : set_0_10 <> []) by discriminate.
  split; [exact H|]. split; [exact H|].
  exact (distance_zero_iff scenario2 H H).
Defined.

Lemma distance_order_independent_witness :
  Permutation [pt 0; pt 10] [pt 10; pt 0] /\
  Permutation [pt 0] [pt 0] /\
  set2set [pt 0; pt 10] [pt 0] = set2set [pt 10; pt 0] [pt 0].
Proof.
  assert (P1 : Permutation [pt 0; pt 10] [pt 10; pt 0]) by apply perm_swap.
  assert (P2 : Permutation [pt 0] [pt 0]) by apply Permutation_refl.
  split; [exact P1|]. split; [exact P2|].
  exact (distance_order_independent P1 P2).
Defined.

End DistanceMoreExamples.

(** * The command line *)

(** ** Splitting at commas *)

Section StringFacts.

Import Ascii String.

Lemma length_str_split (sep : ascii) (s : string) :
  List.length (str_split sep s) = S (str_count sep s).
Proof.
  induction s as [|c rest IH]; simpl.
  - reflexivity.
  - destruct (Ascii.eqb c sep); simpl.
    + rewrite IH. reflexivity.
    + destruct (str_split sep rest) as [|field fields]; simpl in *;
        [discriminate IH | exact IH].
Qed.

Lemma str_contains_count (sep : ascii) (s : string) :
  str_contains sep s = true <-> (1 <= str_count sep s)%nat.
Proof.
  induction s as [|c rest IH]; simpl.
  - split; [discriminate | lia].
  - destruct (Ascii.eqb c sep); simpl.
    + split; [lia | reflexivity].
    + exact IH.
Qed.

Lemma str_split_no_sep (sep : ascii) (s : string) :
  str_contains sep s = false -> str_split sep s = [s].
Proof.
  induction s as [|c rest IH]; simpl.
  - reflexivity.
  - destruct (Ascii.eqb c sep); simpl; [discriminate|].
    intros H. rewrite (IH H). reflexivity.
Qed.

End StringFacts.

Section ComprehensionFacts.

Variables A B : Type.
Variable f : A -> option B.

Lemma comprehension_some (l : list A) :
  forall ys : list B,
    comprehension f l = Some ys <->
    Forall2 (fun x y => f x = Some y) l ys.
Proof.
  induction l as [|x t IH]; intros ys; simpl.
  - split.
    + intros H. injection H as <-. constructor.
    + intros H. inversion H. reflexivity.
  - destruct (f x) as [y|] eqn:E.
    + destruct (comprehension f t) as [zs|] eqn:Et.
      * split.
        -- intros H. injection H as <-. constructor; [exact E|].
           apply IH. reflexivity.
        -- intros H. inversion H as [|? y' ? ys' Hy Hrest]; subst.
           apply IH in Hrest. congruence.
      * split; [discriminate|].
        intros H. inversion H as [|? y' ? ys' Hy Hrest]; subst.
        apply IH in Hrest. discriminate Hrest.
    + split; [discriminate|].
      intros H. inversion H; subst. congruence.
Qed.

Lemma comprehension_fails (l : list A) (x : A) :
  In x l -> f x = None -> comprehension f l = None.
Proof.
  induction l as [|a t IH]; simpl; intros Hin Hx; [contradiction|].
  destruct Hin as [->|Hin].
  - rewrite Hx. reflexivity.
  - destruct (f a); [|reflexivity]. rewrite (IH Hin Hx). reflexivity.
Qed.

End ComprehensionFacts.

(** ** The option callbacks *)

Section AmountFacts.

Variable py_int : String.string -> option Z.

Lemma positive_int_some (i : String.string) (n : Z) :
  positive_int py_int i = Some n <-> py_int i = Some n /\ (0 < n)%Z.
Proof.
  unfold positive_int. destruct (py_int i) as [z|].
  - destruct (z <=? 0)%Z eqn:E.
    + apply Z.leb_le in E. split; [discriminate|].
      intros [H Hn]. injection H as ->. lia.
    + apply Z.leb_gt in E. split.
      * intros H. injection H as <-. split; [reflexivity | exact E].
      * intros [H _]. exact H.
  - split; [discriminate | intros [H _]; discriminate H].
Qed.

(** X12.  [validate_binning_amount] accepts a value without a comma as one
    int, when [int] reads it and it is positive, and a value with commas
    as the list of its fields, when [int] reads every field and every
    one is positive; it accepts nothing else. *)
Theorem validate_binning_amount_accepts
  (value : option String.string) (a : amount) :
  validate_binning_amount py_int value = Accept a <->
  exists v : String.string,
    value = Some v /\
    match a with
    | Amount n =>
        str_contains comma v = false /\ py_int v = Some n /\ (0 < n)%Z
    | Amounts l =>
        str_contains comma v = true /\
        Forall2 (fun field n => py_int field = Some n /\ (0 < n)%Z)
                (str_split comma v) l
    end.
Proof.
  assert (Hall : forall (fields : list String.string) (l : list Z),
             Forall2 (fun x y => positive_int py_int x = Some y) fields l
             <-> Forall2 (fun field n => py_int field = Some n /\ (0 < n)%Z)
                         fields l).
  { intros fields l. split; intros H; induction H; constructor;
      try assumption; apply positive_int_some; assumption. }
  unfold validate_binning_amount. destruct value as [v|].
  - destruct (str_contains comma v) eqn:Ec.
    + destruct (comprehension (positive_int py_int) (str_split comma v))
        as [l|] eqn:El.
      * apply comprehension_some in El. split.
        -- intros H. injection H as <-. exists v.
           split; [reflexivity|]. split; [exact Ec|]. apply Hall. exact El.
        -- intros [v' [Hv Ha]]. injection Hv as <-.
           destruct a as [n|l'].
           ++ destruct Ha as [C _]. congruence.
           ++ destruct Ha as [_ Hf]. apply Hall in Hf.
              apply comprehension_some in El, Hf. congruence.
      * split; [discriminate|].
        intros [v' [Hv Ha]]. injection Hv as <-.
        destruct a as [n|l'].
        -- destruct Ha as [C _]. congruence.
        -- destruct Ha as [_ Hf]. apply Hall in Hf.
           apply comprehension_some in Hf. congruence.
    + destruct (positive_int py_int v) as [n|] eqn:En.
      * apply positive_int_some in En. split.
        -- intros H. injection H as <-. exists v.
           split; [reflexivity|]. tauto.
        -- intros [v' [Hv Ha]]. injection Hv as <-.
           destruct a as [n'|l'].
           ++ destruct Ha as [_ [Hn _]]. destruct En as [En _]. congruence.
           ++ destruct Ha as [C _]. congruence.
      * split; [discriminate|].
        intros [v' [Hv Ha]]. injection Hv as <-.
        destruct a as [n'|l'].
        -- destruct Ha as [_ Hn]. apply positive_int_some in Hn. congruence.
        -- destruct Ha as [C _]. congruence.
  - split; [discriminate|]. intros [v [Hv _]]. discriminate Hv.
Qed.

(** X13.  What [validate_binning_amount] returns is positive: the int, or every
    int of the list; and a list has one entry per comma-separated field,
    so at least two. *)
Theorem accepted_amounts_positive (v : String.string) (a : amount) :
  validate_binning_amount py_int (Some v) = Accept a ->
  match a with
  | Amount n => (0 < n)%Z
  | Amounts l =>
      Forall (fun n => (0 < n)%Z) l /\
      length l = S (str_count comma v) /\ (2 <= length l)%nat
  end.
Proof.
  unfold validate_binning_amount.
  destruct (str_contains comma v) eqn:Ec.
  - destruct (comprehension (positive_int py_int) (str_split comma v))
      as [l|] eqn:El; [|discriminate].
    intros H. injection H as <-.
    apply comprehension_some in El.
    pose proof (Forall2_length El) as Hlen.
    rewrite length_str_split in Hlen.
    apply str_contains_count in Ec.
    split; [|split; lia].
    clear Hlen. induction El as [|x n fields l Hx _ IH]; constructor.
    + apply positive_int_some in Hx. tauto.
    + exact IH.
  - destruct (positive_int py_int v) as [n|] eqn:En; [|discriminate].
    intros H. injection H as <-.
    apply positive_int_some in En. tauto.
Qed.

(** X14.  [validate_binning_amount] rejects with [BadParameter] only; it
    rejects a missing value; and, [int] not reading the empty string, it
    rejects a list with an empty field, such as a trailing comma
    leaves. *)
Theorem validate_binning_amount_rejects :
  (forall (value : option String.string) (e : click_exn),
      validate_binning_amount py_int value = Reject e -> e = BadParameter) /\
  validate_binning_amount py_int None = Reject BadParameter /\
  (py_int String.EmptyString = None ->
   forall v : String.string,
     In String.EmptyString (str_split comma v) ->
     validate_binning_amount py_int (Some v) = Reject BadParameter).
Proof.
  split; [|split].
  - intros value e. unfold validate_binning_amount.
    destruct value as [v|]; [|intros H; injection H as <-; reflexivity].
    destruct (str_contains comma v).
    + destruct (comprehension _ _); [discriminate|].
      intros H. injection H as <-. reflexivity.
    + destruct (positive_int py_int v); [discriminate|].
      intros H. injection H as <-. reflexivity.
  - reflexivity.
  - intros Hempty v Hin. unfold validate_binning_amount.
    assert (Hp : positive_int py_int String.EmptyString = None)
      by (unfold positive_int; rewrite Hempty; reflexivity).
    destruct (str_contains comma v) eqn:Ec.
    + rewrite (comprehension_fails _ _ _ Hin Hp). reflexivity.
    + rewrite (str_split_no_sep _ _ Ec) in Hin.
      destruct Hin as [->|[]]. rewrite Hp. reflexivity.
Qed.

End AmountFacts.

Section DomainFacts.

Variable py_float : String.string -> option (npfloat Q).

(** X15.  What [validate_binning_domain] returns for a given value is a list
    with one entry per comma-separated field, never empty, and no entry
    is [<= 0]: each is a positive number, [+inf] or [nan]. *)
Theorem accepted_domain_values
  (v : String.string) (r : option (list (npfloat Q))) :
  validate_binning_domain py_float (Some v) = Accept r ->
  exists l : list (npfloat Q),
    r = Some l /\
    length l = S (str_count comma v) /\
    Forall2 (fun field x => py_float field = Some x) (str_split comma v) l /\
    Forall (fun x => match x with
                     | Fin q => (0 < q)%Q
                     | PInf => True
                     | NaN => True
                     | NInf => False
                     end) l.
Proof.
  unfold validate_binning_domain.
  destruct (comprehension (positive_float py_float) (str_split comma v))
    as [l|] eqn:El; [|discriminate].
  intros H. injection H as <-. exists l. split; [reflexivity|].
  apply comprehension_some in El.
  pose proof (Forall2_length El) as Hlen.
  rewrite length_str_split in Hlen.
  split; [lia|]. clear Hlen.
  induction El as [|x y fields l Hx _ [IH1 IH2]];
    [split; constructor|].
  unfold positive_float in Hx.
  destruct (py_float x) as [z|] eqn:Ez; [|discriminate].
  destruct (le_zero z) eqn:Ele; [discriminate|].
  injection Hx as <-. split; constructor; try assumption.
  destruct z as [q| | |]; simpl in Ele; try exact I; try discriminate.
  apply Qnot_le_lt. intros C. apply Qle_bool_iff in C. congruence.
Qed.

(** X16.  A missing domain is passed on as [None]; and where [float] reads a
    field as [nan], the test [float(f) <= 0] lets it through, so the
    callback returns [nan] as a domain limit. *)
Theorem validate_binning_domain_nan :
  validate_binning_domain py_float None = Accept None /\
  (forall v : String.string,
      str_contains comma v = false ->
      py_float v = Some NaN ->
      validate_binning_domain py_float (Some v) = Accept (Some [NaN])).
Proof.
  split; [reflexivity|].
  intros v Hc Hv. unfold validate_binning_domain.
  rewrite (str_split_no_sep _ _ Hc). simpl.
  unfold positive_float. rewrite Hv. reflexivity.
Qed.

End DomainFacts.

(** ** The [compare] command *)

Section CompareFacts.

Variable d : nat.
Variable read : String.string -> option (LoadedSource d).

(** X17.  [compare] returns exactly when both files are read, the two domains
    and the binning have one dimensionality, the engine is built and the
    three metrics return; it has then printed the error, the quality
    triple and the distance of that engine, in this order. *)
Theorem compare_returns_iff
  (real generated : String.string) (arg : BinningArg) (log : list echo) :
  compare read real generated arg = (log, None) <->
  exists (r g : LoadedSource d) (self : KPIs d)
         (err : npfloat Q) (q : npfloat Q * npfloat Q * npfloat Q)
         (dist : npfloat R),
    read real = Some r /\ read generated = Some g /\
    length (domain r) = length (domain g) /\
    dimensions arg = length (domain r) /\
    init (as_source r) (as_source g) (as_binning arg) = Ok self /\
    error self = Ok err /\ quality self = Ok q /\ distance self = Ok dist /\
    log = [EchoError err; EchoQuality q; EchoDistance dist].
Proof.
  unfold compare. split.
  - destruct (read real) as [r|]; [|discriminate].
    destruct (read generated) as [g|]; [|discriminate].
    destruct (Nat.eqb (length (domain r)) (length (domain g))) eqn:E1;
      [|discriminate].
    destruct (Nat.eqb (dimensions arg) (length (domain r))) eqn:E2;
      [|discriminate].
    cbn [negb].
    destruct (init _ _ _) as [self|] eqn:Hi; [|discriminate].
    destruct (error self) as [err|] eqn:He; [|discriminate].
    destruct (quality self) as [q|] eqn:Hq; [|discriminate].
    destruct (distance self) as [dist|] eqn:Hd; [|discriminate].
    intros H. injection H as <-.
    apply Nat.eqb_eq in E1, E2.
    exists r, g, self, err, q, dist. repeat split; assumption.
  - intros (r & g & self & err & q & dist
            & Hr & Hg & E1 & E2 & Hi & He & Hq & Hd & ->).
    rewrite Hr, Hg.
    rewrite (proj2 (Nat.eqb_eq _ _) E1), (proj2 (Nat.eqb_eq _ _) E2).
    cbn [negb]. rewrite Hi, He, Hq, Hd. reflexivity.
Qed.

(** X18.  The body of [compare] ends in a click error exactly when a file
    cannot be read ([FileError] on the real file first, then on the
    generated one) or the two domains or the binning differ in
    dimensionality ([UsageError]); the body has printed nothing then
    (a line on the screen is the binning callback's, which runs before
    the body), and the engine has not been built. *)
Theorem compare_click_error_iff
  (real generated : String.string) (arg : BinningArg)
  (log : list echo) (e : click_exn) :
  compare read real generated arg = (log, Some (Click e)) <->
  log = [] /\
  ((read real = None /\ e = FileError real) \/
   (read real <> None /\ read generated = None /\ e = FileError generated) \/
   (exists r g : LoadedSource d,
       read real = Some r /\ read generated = Some g /\ e = UsageError /\
       (length (domain r) <> length (domain g) \/
        dimensions arg <> length (domain r)))).
Proof.
  unfold compare.
  destruct (read real) as [r|].
  - destruct (read generated) as [g|].
    + destruct (Nat.eqb (length (domain r)) (length (domain g))) eqn:E1;
        cbn [negb].
      * destruct (Nat.eqb (dimensions arg) (length (domain r))) eqn:E2;
          cbn [negb].
        -- apply Nat.eqb_eq in E1, E2. split.
           ++ destruct (init _ _ _) as [self|]; [|discriminate].
              destruct (error self); [|discriminate].
              destruct (quality self); [|discriminate].
              destruct (distance self); discriminate.
           ++ intros [_ [[C _] | [[_ [C _]] | (r' & g' & Hr & Hg & _ & Hbad)]]];
                try discriminate C.
              injection Hr as <-. injection Hg as <-.
              destruct Hbad; contradiction.
        -- apply Nat.eqb_neq in E2. split.
           ++ intros H. injection H as <- <-. split; [reflexivity|].
              right. right. exists r, g. auto.
           ++ intros [-> [[C _] | [[_ [C _]] | (r' & g' & _ & _ & -> & _)]]];
                try discriminate C. reflexivity.
      * apply Nat.eqb_neq in E1. split.
        -- intros H. injection H as <- <-. split; [reflexivity|].
           right. right. exists r, g. auto.
        -- intros [-> [[C _] | [[_ [C _]] | (r' & g' & _ & _ & -> & _)]]];
             try discriminate C. reflexivity.
    + split.
      * intros H. injection H as <- <-. split; [reflexivity|].
        right. left. split; [discriminate | auto].
      * intros [-> [[C _] | [[_ [_ ->]] | (r' & g' & _ & C & _)]]];
          try discriminate C. reflexivity.
  - split.
    + intros H. injection H as <- <-. auto.
    + intros [-> [[_ ->] | [[C _] | (r' & g' & C & _)]]];
        try discriminate C; try reflexivity. congruence.
Qed.

(** X19.  The metrics are printed as they are computed: on two data sources
    without points, over histograms of one shape with at least one bin,
    [compare] prints the error and the quality triple and then ends in
    the [ZeroDivisionError] of [distance()]. *)
Theorem compare_prints_before_failing
  (real generated : String.string) (arg : BinningArg)
  (r g : LoadedSource d) (self : KPIs d) :
  read real = Some r -> read generated = Some g ->
  length (domain r) = length (domain g) ->
  dimensions arg = length (domain r) ->
  init (as_source r) (as_source g) (as_binning arg) = Ok self ->
  __h2f self <> [] ->
  length (__h1f self) = length (__h2f self) ->
  length (volumes (binning (__h2 self))) = length (__h1f self) ->
  call (as_source r) true = [] -> call (as_source g) true = [] ->
  exists (err : npfloat Q) (q : npfloat Q * npfloat Q * npfloat Q),
    error self = Ok err /\ quality self = Ok q /\
    compare read real generated arg
    = ([EchoError err; EchoQuality q], Some (Python ZeroDivisionError)).
Proof.
  intros Hr Hg E1 E2 Hi Hne Hlen Hv Hc1 Hc2.
  pose proof (init_diff_length _ _ _ Hi Hlen) as Hd.
  destruct (error_unguarded self Hne) as [err [He _]].
  destruct (quality_unguarded self Hd Hv) as [qa [qn [qe [Hq _]]]].
  destruct (init_fields _ _ _ Hi) as [Rd [Gd _]].
  assert (Hdist : distance self = Raise ZeroDivisionError).
  { unfold distance. rewrite Rd, Gd, Hc1, Hc2. reflexivity. }
  exists err, (qa, qn, qe). split; [exact He|]. split; [exact Hq|].
  unfold compare.
  rewrite Hr, Hg.
  rewrite (proj2 (Nat.eqb_eq _ _) E1), (proj2 (Nat.eqb_eq _ _) E2).
  cbn [negb]. rewrite Hi, He, Hq, Hdist. reflexivity.
Qed.

End CompareFacts.

Section CliExamples.

Import String.StringSyntax.
Local Open Scope string_scope.

Example split_fields : str_split comma "3,,4," = ["3"; ""; "4"; ""].
Proof. reflexivity. Qed.

Example amount_single :
  validate_binning_amount decimal_int (Some "12") = Accept (Amount 12).
Proof. reflexivity. Qed.

Example amount_trailing_comma :
  validate_binning_amount decimal_int (Some "3,") = Reject BadParameter.
Proof. reflexivity. Qed.

Example compare_unreadable :
  compare files "real" "missing" line_binning
  = ([], Some (Click (FileError "missing"))).
Proof. reflexivity. Qed.

Example compare_wrong_binning :
  compare files "real" "generated" plane_binning
  = ([], Some (Click UsageError)).
Proof. reflexivity. Qed.

Lemma get_quality_monotone_witness :
  (Qabs 1 <= Qabs (-2))%Q /\ (get_quality 4 (-2) <= get_quality 4 1)%Q.
Proof.
  assert (H : (Qabs 1 <= Qabs (-2))%Q) by (vm_compute; discriminate).
  split; [exact H|].
  exact (proj1 (get_quality_monotone 4 1 (-2)) H).
Defined.

Lemma accepted_amounts_positive_witness :
  validate_binning_amount decimal_int (Some "3,4") = Accept (Amounts [3; 4]%Z)
  /\ Forall (fun n => (0 < n)%Z) [3; 4]%Z
  /\ length [3; 4]%Z = S (str_count comma "3,4")
  /\ (2 <= length [3; 4]%Z)%nat.
Proof.
  split; [reflexivity|].
  exact (accepted_amounts_positive decimal_int "3,4"
           (a := Amounts [3; 4]%Z) eq_refl).
Defined.

Lemma validate_binning_amount_rejects_witness :
  decimal_int "" = None /\
  In "" (str_split comma "3,") /\
  validate_binning_amount decimal_int (Some "3,") = Reject BadParameter.
Proof.
  assert (Hin : In "" (str_split comma "3,"))
    by (right; left; reflexivity).
  split; [reflexivity|]. split; [exact Hin|].
  exact (proj2 (proj2 (validate_binning_amount_rejects decimal_int))
               eq_refl "3," Hin).
Defined.

Lemma accepted_domain_values_witness :
  validate_binning_domain decimal_float (Some "5,nan")
  = Accept (Some [Fin (inject_Z 5); NaN]) /\
  exists l : list (npfloat Q),
    Some [Fin (inject_Z 5); NaN] = Some l /\
    length l = S (str_count comma "5,nan") /\
    Forall2 (fun field x => decimal_float field = Some x)
            (str_split comma "5,nan") l /\
    Forall (fun x => match x with
                     | Fin q => (0 < q)%Q
                     | PInf => True
                     | NaN => True
                     | NInf => False
                     end) l.
Proof.
  split; [reflexivity|].
  exact (accepted_domain_values decimal_float "5,nan"
           (r := Some [Fin (inject_Z 5); NaN]) eq_refl).
Defined.

Lemma validate_binning_domain_nan_witness :
  str_contains comma "nan" = false /\
  decimal_float "nan" = Some NaN /\
  validate_binning_domain decimal_float (Some "nan") = Accept (Some [NaN]).
Proof.
  split; [reflexivity|]. split; [reflexivity|].
  exact (proj2 (validate_binning_domain_nan decimal_float)
               "nan" eq_refl eq_refl).
Defined.

Lemma compare_prints_before_failing_witness :
  files "empty" = Some empty_file /\
  init (as_source empty_file) (as_source empty_file)
       (as_binning line_binning) = Ok no_points /\
  __h2f no_points <> [] /\
  exists (err : npfloat Q) (q : npfloat Q * npfloat Q * npfloat Q),
    error no_points = Ok err /\ quality no_points = Ok q /\
    compare files "empty" "empty" line_binning
    = ([EchoError err; EchoQuality q], Some (Python ZeroDivisionError)).
Proof.
  assert (Hne : __h2f no_points <> []) by discriminate.
  split; [reflexivity|]. split; [reflexivity|]. split; [exact Hne|].
  exact (compare_prints_before_failing files "empty" "empty" line_binning
           (r := empty_file) (g := empty_file) (self := no_points)
           eq_refl eq_refl eq_refl eq_refl eq_refl Hne
           eq_refl eq_refl eq_refl eq_refl).
Defined.

End CliExamples.

(** ** Rounding in the quality metric *)

Section Float64Examples.

Import Floats.
Local Open Scope float_scope.

(** The two sums of sixteen times 0.1 differ: 1.6000000000000003 from
    left to right, 1.6 pairwise. *)
Example two_sums_of_sixteen_tenths :
  f64_sum sixteen_tenths = 0x1.999999999999bp+0 /\
  f64_ndarray_sum sixteen_tenths = 0x1.999999999999ap+0.
Proof. split; vm_compute; reflexivity. Qed.

(** C5, as stated, fails in [float64]: on sixteen bins of volume 0.1 with
    equal real and generated counts, the partitions of all bins and of
    the bins with [r > 0] select every bin, and their components are
    1.0000000000000002, above 1. *)
Lemma quality_exceeds_one_in_float64 :
  f64_quality sixteen_ones sixteen_ones sixteen_tenths
  = Ok (one_and_an_ulp, one_and_an_ulp, 2) /\
  (1 <? one_and_an_ulp) = true.
Proof. split; vm_compute; reflexivity. Qed.

(** In exact arithmetic the same engine scores 1. *)
Example sixteen_bins_exact :
  exists qa qn : Q,
    quality sixteen_bins = Ok (Fin qa, Fin qn, Fin 2%Q) /\
    (qa == 1)%Q /\ (qn == 1)%Q.
Proof.
  eexists. eexists. split; [vm_compute; reflexivity|].
  split; vm_compute; reflexivity.
Qed.

End Float64Examples.
